(** * RepCue video pipeline: retiming, frame ranges, job expansion, batch loop

    A shallow embedding of the scripts under
    [docs/implementation-plans/video/]:

    - [blender_batch_render.py]   (module [Batch]),
    - [render_catalog_scenes.py]  (module [Catalog]),
    - [repcue_render_addon.py]    (module [Addon]),
    - [build_catalog_blend.py]    (module [BuildCatalog], its timeline only).

    Conventions of the embedding.

    - Python [float] values (seconds, key times, handle times) are exact
      rationals [Q]; "equal" on them is [Qeq] ([==]).  Rounding of binary
      floating point is not part of that model; module [Binary64] repeats
      the arithmetic of the scripts on IEEE doubles, to evaluate it at
      the concrete values the properties name.
    - Python [int] values (fps, frame numbers, resolutions) are [Z].
    - [int(x)] on a float truncates toward zero: [py_int].
    - [a / b] raises [ZeroDivisionError] on a zero divisor: [py_truediv]
      returns [None] there.
    - Strings are [string]; [os.path.join] and [os.path.splitext] are the
      POSIX versions.
    - What Blender does (importers, the objects left selected by an import,
      rendering) is an input of the model, see [Batch.World]; a render call
      is recorded as an event with the scene settings it runs under.
    - A value the scripts assign to a Blender property is taken at the
      value assigned; what Blender stores instead (a frame range kept in
      order, an fps or a frame number kept within its bounds, a scene name
      kept unique, handles recomputed by [fcu.update()]) is not modelled,
      and nothing below is stated about it.
    - Line 207 of blender_batch_render.py is not Python: see
      [Batch.line_207]. *)

From Stdlib Require Import ZArith QArith Qround Qminmax List Sorted String Ascii Bool Lia Lqa.
From Stdlib Require Import PrimFloat FloatOps SpecFloat.
From Stdlib Require Import Qabs DecimalString.
Import ListNotations.

Local Open Scope Z_scope.

(* ------------------------------------------------------------------ *)
(** ** Python primitives *)

Module Py.

(** [int(x)] for a float [x]: the integer part, rounding toward zero. *)
Definition py_int (x : Q) : Z := Z.quot (Qnum x) (Zpos (Qden x)).

(** [a / b] on floats. *)
Definition py_truediv (a b : Q) : option Q :=
  if Qeq_bool b 0 then None else Some (a / b)%Q.

(** [x or d] on ints: [d] when [x] is falsy, that is, zero. *)
Definition py_or (x d : Z) : Z := if x =? 0 then d else x.

(** [a > b] on floats. *)
Definition py_gt (a b : Q) : bool := negb (Qle_bool a b).

(** [s in xs] for a set or tuple of strings. *)
Definition py_in (s : string) (xs : list string) : bool :=
  existsb (String.eqb s) xs.

(** [str.lower] on ASCII text. *)
Definition lower_ascii (c : ascii) : ascii :=
  let n := nat_of_ascii c in
  if ((65 <=? n) && (n <=? 90))%nat then ascii_of_nat (n + 32) else c.

Fixpoint lower (s : string) : string :=
  match s with
  | EmptyString => EmptyString
  | String c r => String (lower_ascii c) (lower r)
  end.

(** [s.startswith("/")] and [s.endswith("/")]. *)
Definition starts_with_sep (s : string) : bool :=
  match s with
  | String c _ => Ascii.eqb c "/"
  | EmptyString => false
  end.

Fixpoint ends_with_sep (s : string) : bool :=
  match s with
  | EmptyString => false
  | String c EmptyString => Ascii.eqb c "/"
  | String _ r => ends_with_sep r
  end.

(** [os.path.join(a, b)] (posixpath): an absolute [b] replaces [a]; no
    separator is added after an empty [a] or one that ends in one. *)
Definition os_path_join (a b : string) : string :=
  if starts_with_sep b then b
  else if (String.eqb a "" || ends_with_sep a)%bool then (a ++ b)%string
  else (a ++ "/" ++ b)%string.

(** A root or an id is plain when [os.path.join] treats it as one more
    path component: not empty, no separator at its ends. *)
Definition plain_root (root : string) : Prop :=
  root <> ""%string /\ ends_with_sep root = false.

Definition plain_id (ex_id : string) : Prop :=
  ex_id <> ""%string
  /\ starts_with_sep ex_id = false /\ ends_with_sep ex_id = false.

(** [s.rfind(c)]: the last index of [c], [None] for Python's [-1]. *)
Fixpoint rfind (c : ascii) (s : string) : option nat :=
  match s with
  | EmptyString => None
  | String d r =>
      match rfind c r with
      | Some i => Some (S i)
      | None => if Ascii.eqb d c then Some O else None
      end
  end.

(** The loop of [genericpath._splitext] that skips leading dots: is one
    of the [len] characters from index [from] on not a dot? *)
Fixpoint has_non_dot (s : string) (from len : nat) : bool :=
  match len with
  | O => false
  | S len' =>
      match String.get from s with
      | Some c => if Ascii.eqb c "." then has_non_dot s (S from) len' else true
      | None => true
      end
  end.

(** [os.path.splitext(p)] (posixpath). *)
Definition splitext (p : string) : string * string :=
  let n := String.length p in
  match rfind "." p with
  | None => (p, ""%string)
  | Some dotIndex =>
      let filenameIndex :=
        match rfind "/" p with Some i => S i | None => O end in
      if (filenameIndex <=? dotIndex)%nat
         && has_non_dot p filenameIndex (dotIndex - filenameIndex)
      then (substring 0 dotIndex p, substring dotIndex (n - dotIndex) p)
      else (p, ""%string)
  end.

End Py.

(* ------------------------------------------------------------------ *)
(** ** Blender data the scripts read and write *)

Module Bpy.

(** A [keyframe_points] element: [co], [handle_left], [handle_right],
    each an (x, y) pair; x is the time in frames. *)
Record Keyframe := mkKeyframe {
  co_x : Q;
  co_y : Q;
  handle_left_x : Q;
  handle_left_y : Q;
  handle_right_x : Q;
  handle_right_y : Q
}.

(** Equality of key points up to the representation of the rationals. *)
Definition keyframe_eq (k k' : Keyframe) : Prop :=
  (co_x k == co_x k' /\ co_y k == co_y k'
   /\ handle_left_x k == handle_left_x k' /\ handle_left_y k == handle_left_y k'
   /\ handle_right_x k == handle_right_x k'
   /\ handle_right_y k == handle_right_y k')%Q.

(** The key times of a curve, in source order. *)
Definition times (curve : list Keyframe) : list Q := map co_x curve.

Record FCurve := mkFCurve {
  data_path : string;
  array_index : Z;
  keyframe_points : list Keyframe
}.

Record Action := mkAction {
  action_name : string;
  fcurves : list FCurve
}.

Record NlaStrip := mkNlaStrip { strip_action : option Action }.

Record NlaTrack := mkNlaTrack { strips : list NlaStrip }.

Record AnimData := mkAnimData {
  action : option Action;
  nla_tracks : list NlaTrack
}.

Inductive ObjectType := ARMATURE | MESH | LIGHT | CAMERA | EMPTY.

Record Object := mkObject {
  obj_name : string;
  obj_type : ObjectType;
  animation_data : option AnimData;
  pose_bones : list string
}.

Definition is_armature (o : Object) : bool :=
  match obj_type o with ARMATURE => true | _ => false end.

(** [scene.frame_start], [scene.frame_end]. *)
Record Scene := mkScene {
  frame_start : Z;
  frame_end : Z
}.

End Bpy.

(* ------------------------------------------------------------------ *)
(** ** Exceptions, output and the monad of the batch script *)

Module Run.

Inductive Exn :=
| RuntimeError (msg : string)
| ZeroDivisionError
| SyntaxError (msg : string).

Inductive result (A : Type) :=
| Ok (a : A)
| Raise (e : Exn).
Arguments Ok {A} a.
Arguments Raise {A} e.

(** A curve as a script keys it: the action it is put in, its data path
    and index, and the [co] pair, (frame, value), assigned to each of its
    key points.  The handles are not part of it: [fcu.update()] computes
    them. *)
Record KeyedCurve := mkKeyedCurve {
  kc_action_name : string;
  kc_data_path : string;
  kc_index : Z;
  kc_co : list (Q * Q)
}.

(** What the script has put on the rig when it reaches the renders. *)
Inductive Animation :=
| NoAnimation
| Normalized (act : Bpy.Action)
| IdleSway (curve : KeyedCurve).

(** One [bpy.ops.render.render(animation=True)] call with the settings
    in force. *)
Record RenderCall := mkRenderCall {
  r_ex_id : string;
  r_kind : string;
  r_aspect : string;
  r_resolution_x : Z;
  r_resolution_y : Z;
  r_filepath : string;
  r_frame_start : Z;
  r_frame_end : Z;
  r_animation : Animation
}.

Inductive Event :=
| Warn (line : string)
| Render (rc : RenderCall)
| Done.

(** A computation: the events it produced, and its value or the
    exception that ended it. *)
Definition M (A : Type) : Type := list Event * result A.

Definition ret {A} (a : A) : M A := ([], Ok a).

Definition raise {A} (e : Exn) : M A := ([], Raise e).

Definition emit (ev : Event) : M unit := ([ev], Ok tt).

Definition bind {A B} (m : M A) (k : A -> M B) : M B :=
  match m with
  | (log, Ok a) => let '(log', r) := k a in (log ++ log', r)
  | (log, Raise e) => (log, Raise e)
  end.

Definition lift {A} (r : result A) : M A := ([], r).

(** What a log holds: the warning lines and the render calls, in order. *)
Definition warnings (log : list Event) : list string :=
  flat_map (fun ev => match ev with Warn line => [line] | _ => [] end) log.

Definition renders (log : list Event) : list RenderCall :=
  flat_map (fun ev => match ev with Render rc => [rc] | _ => [] end) log.

(** [for x in xs: body(x)]; an exception leaves the loop. *)
Fixpoint for_each {A} (xs : list A) (body : A -> M unit) : M unit :=
  match xs with
  | [] => ret tt
  | x :: rest => bind (body x) (fun _ => for_each rest body)
  end.

End Run.

Declare Scope run_scope.
Delimit Scope run_scope with run.
Notation "x <- c ;; k" := (Run.bind c (fun x => k))
  (at level 100, c at next level, right associativity) : run_scope.
Notation "c ;;; k" := (Run.bind c (fun _ => k))
  (at level 100, right associativity) : run_scope.

(* ------------------------------------------------------------------ *)
(** ** blender_batch_render.py *)

Module Batch.
Import Py Bpy Run.
Local Open Scope string_scope.

(** The parsed command line (lines 16-26); [--format] is parsed and
    never read. *)
Record Args := mkArgs {
  src : string;
  out : string;
  ids : list string;
  fps : Z;
  seconds : Q;
  static_seconds : Q
}.

Inductive Importer := FBX | GLTF | BLEND.

(** Blender and the file system, as far as the script observes them:
    [os.path.exists]; what an importer leaves in
    [bpy.context.selected_objects], or the error it raises; and the
    [frame_range] Blender reports for an action. *)
Record World := mkWorld {
  path_exists : string -> bool;
  run_importer : Importer -> string -> result (list Object);
  frame_range : Action -> Q * Q
}.

(** [import_asset] (lines 105-121). *)
Definition import_asset (w : World) (path : string) : result (option Object) :=
  let ext := lower (snd (splitext path)) in
  let imported :=
    if ext =? ".fbx" then run_importer w FBX path
    else if (ext =? ".glb") || (ext =? ".gltf") then run_importer w GLTF path
    else if ext =? ".blend" then run_importer w BLEND path
    else Raise (RuntimeError ("Unsupported file: " ++ path)) in
  match imported with
  | Ok selected_objects =>
      let rigs := filter is_armature selected_objects in
      Ok (hd_error rigs)
  | Raise e => Raise e
  end.

(** [find_action] (lines 123-130). *)
Definition find_action (obj : option Object) : option Action :=
  match obj with
  | Some o =>
      match animation_data o with
      | Some ad =>
          match action ad with
          | Some a => Some a
          | None =>
              match nla_tracks ad with
              | t :: _ =>
                  match strips t with
                  | s :: _ => strip_action s
                  | [] => None
                  end
              | [] => None
              end
          end
      | None => None
      end
  | None => None
  end.

(** The asset lookup at the head of the loop body (lines 157-162). *)
Definition ASSET_EXTS : list string := [".fbx"; ".glb"; ".gltf"; ".blend"].

Fixpoint first_existing (w : World) (src_base : string) (exts : list string)
  : option string :=
  match exts with
  | [] => None
  | ext :: rest =>
      let cand := src_base ++ ext in
      if path_exists w cand then Some cand else first_existing w src_base rest
  end.

Definition find_asset (w : World) (a : Args) (ex_id : string) : option string :=
  first_existing w (os_path_join (src a) ex_id) ASSET_EXTS.

(** Duration and frame range (lines 171-176). *)
Definition STATIC_IDS : list string :=
  ["plank"; "side-plank"; "wall-sit"; "downward-dog"; "child-pose";
   "single-leg-stand"; "tree-pose"; "warrior-3"; "forward-fold"; "finger-roll"].

Definition is_static (ex_id : string) : bool := py_in ex_id STATIC_IDS.

Definition duration (a : Args) (ex_id : string) : Q :=
  if is_static ex_id then static_seconds a else seconds a.

(** The two values lines 175-176 assign.  (Blender keeps a scene's range
    in order and within its bounds when it stores them; the stored range
    is not modelled.) *)
Definition frame_range_for (a : Args) (ex_id : string) : Scene :=
  {| frame_start := 1;
     frame_end := py_int (duration a ex_id * inject_Z (fps a)) |}.

(** Retiming (lines 182-189).  [orig] is line 183, [scale] line 184,
    [remap] the right-hand side of lines 187-189. *)
Definition orig (fstart fend : Q) : Q :=
  if py_gt fend fstart then (fend - fstart)%Q else 1%Q.

Definition scale (scene : Scene) (fstart fend : Q) : option Q :=
  py_truediv (inject_Z (frame_end scene - frame_start scene + 1))
             (orig fstart fend).

Definition remap (scene : Scene) (fstart sc x : Q) : Q :=
  ((x - fstart) * sc + inject_Z (frame_start scene))%Q.

Definition retime_keyframe (scene : Scene) (fstart sc : Q) (kp : Keyframe)
  : Keyframe :=
  {| co_x := remap scene fstart sc (co_x kp);
     co_y := co_y kp;
     handle_left_x := remap scene fstart sc (handle_left_x kp);
     handle_left_y := handle_left_y kp;
     handle_right_x := remap scene fstart sc (handle_right_x kp);
     handle_right_y := handle_right_y kp |}.

(** One curve, for a given source range and scene frame range. *)
Definition retime (curve : list Keyframe) (source : Q * Q) (scene : Scene)
  : option (list Keyframe) :=
  let '(fstart, fend) := source in
  match scale scene fstart fend with
  | Some sc => Some (map (retime_keyframe scene fstart sc) curve)
  | None => None
  end.

Definition retime_fcurve (scene : Scene) (fstart sc : Q) (fc : FCurve) : FCurve :=
  {| data_path := data_path fc;
     array_index := array_index fc;
     keyframe_points := map (retime_keyframe scene fstart sc) (keyframe_points fc) |}.

(** The [if act:] branch: every curve of the action, with the range read
    from the action itself. *)
Definition normalize_action (w : World) (scene : Scene) (act : Action)
  : result Action :=
  let '(fstart, fend) := frame_range w act in
  match scale scene fstart fend with
  | Some sc =>
      Ok {| action_name := action_name act;
            fcurves := map (retime_fcurve scene fstart sc) (fcurves act) |}
  | None => Raise ZeroDivisionError
  end.

(** The [else] branch when there is a rig (lines 194-203): a new action
    [<id>_Idle] with one curve, [rotation_euler] index 2, to which
    [keyframe_points.add(2)] gives two key points; the script assigns
    their [co] (lines 201-202) and calls [fcu.update()] (line 203), which
    sets the handles. *)
Definition idle_curve (ex_id : string) (scene : Scene) : KeyedCurve :=
  {| kc_action_name := ex_id ++ "_Idle";
     kc_data_path := "rotation_euler";
     kc_index := 2;
     kc_co := [ (inject_Z (frame_start scene), 0%Q);
                (inject_Z (frame_end scene), 5 # 100) ] |}.

(** Lines 179-203: what ends up on the rig. *)
Definition animate (w : World) (ex_id : string) (scene : Scene)
           (rig : option Object) : result Animation :=
  match find_action rig with
  | Some act =>
      match normalize_action w scene act with
      | Ok act' => Ok (Normalized act')
      | Raise e => Raise e
      end
  | None =>
      match rig with
      | Some _ => Ok (IdleSway (idle_curve ex_id scene))
      | None => Ok NoAnimation
      end
  end.

(** The aspect loop (lines 206-214).

    Line 207, the first statement of its body, is not an expression
    Python accepts ("expected 'else' after 'if' expression"; it also
    names [FLOOD_IDS], which nothing defines).  Python reports that when
    it compiles the file.  The model keeps the statements in program
    order and places the error where control reaches the line, so that
    what the statements before it compute can be stated; control never
    gets past it, and the statements after it in the body (lines 209-214)
    are never run.  Their expressions are given below for what they
    would compute. *)
Definition line_207 : result string :=
  Raise (SyntaxError "expected 'else' after 'if' expression").

Definition ASPECTS : list string := ["square"; "portrait"; "landscape"].

Definition FLOOR_IDS : list string :=
  ["plank"; "side-plank"; "mountain-climbers"; "bicycle-crunches"; "dead-bug";
   "glute-bridges"; "tricep-dips"; "downward-dog"; "child-pose"; "cat-cow";
   "bear-crawl"; "forward-fold"].

(** Line 209. *)
Definition kind_of (ex_id : string) : string :=
  if py_in ex_id FLOOR_IDS then "floor" else "standing".

(** The resolution [position_camera] sets (lines 71-79). *)
Definition resolution (aspect : string) : Z * Z :=
  if aspect =? "square" then (1080, 1080)
  else if aspect =? "portrait" then (1080, 1920)
  else (1920, 1080).

(** Line 213. *)
Definition filepath (a : Args) (ex_id aspect : string) : string :=
  let out_dir := os_path_join (out a) ex_id in
  os_path_join out_dir
    (ex_id ++ "_v1_"
       ++ (if aspect =? "square" then "1080x1080"
           else if aspect =? "portrait" then "1080x1920"
           else "1920x1080")
       ++ ".mp4").

Definition render_call (a : Args) (ex_id : string) (scene : Scene)
           (anim : Animation) (aspect : string) : RenderCall :=
  {| r_ex_id := ex_id;
     r_kind := kind_of ex_id;
     r_aspect := aspect;
     r_resolution_x := fst (resolution aspect);
     r_resolution_y := snd (resolution aspect);
     r_filepath := filepath a ex_id aspect;
     r_frame_start := frame_start scene;
     r_frame_end := frame_end scene;
     r_animation := anim |}.

(** One turn of the aspect loop: line 207, then lines 209-214. *)
Definition render_aspect (a : Args) (ex_id : string) (scene : Scene)
           (anim : Animation) (aspect : string) : M unit :=
  (_ <- lift line_207 ;;
   emit (Render (render_call a ex_id scene anim aspect)))%run.

Definition render_aspects (a : Args) (ex_id : string) (scene : Scene)
           (anim : Animation) : M unit :=
  for_each ASPECTS (render_aspect a ex_id scene anim).

Definition missing_asset_line (a : Args) (ex_id : string) : string :=
  "[WARN] Missing asset for " ++ ex_id ++ " in " ++ src a.

(** The body of [for ex_id in args.ids] (lines 136-214).  Lines 138-154
    rebuild the scene through Blender's operators, which are taken to
    succeed.  The first branch ends after the warning, as [continue]
    does. *)
Definition process_id (w : World) (a : Args) (ex_id : string) : M unit :=
  match find_asset w a ex_id with
  | None => emit (Warn (missing_asset_line a ex_id))
  | Some fpath =>
      (rig <- lift (import_asset w fpath) ;;
       let scene := frame_range_for a ex_id in
       anim <- lift (animate w ex_id scene rig) ;;
       render_aspects a ex_id scene anim)%run
  end.

(** The loop over a catalog, and the whole script from line 136 on. *)
Definition run_ids (w : World) (a : Args) (catalog : list string) : M unit :=
  for_each catalog (process_id w a).

Definition run (w : World) (a : Args) : M unit :=
  (run_ids w a (ids a) ;;; emit Done)%run.

(** For each aspect, what lines 209-213 would set: the resolution of
    [position_camera] and the path of line 213. *)
Definition expand (a : Args) (ex_id : string) : list (string * Z * Z * string) :=
  map (fun aspect =>
         (aspect, fst (resolution aspect), snd (resolution aspect),
          filepath a ex_id aspect))
      ASPECTS.

End Batch.

(* ------------------------------------------------------------------ *)
(** ** render_catalog_scenes.py *)

Module Catalog.
Import Py.
Local Open Scope string_scope.

(** [parse_argv] (lines 12-22). *)
Record Args := mkArgs {
  out : string;
  fps : Z;
  seconds : Q;
  static_seconds : Q;
  static_ids : list string;
  subset : option (list string)
}.

(** The (aspect, wh) tuple of line 64. *)
Definition ASPECTS : list (string * string) :=
  [("square", "1080x1080"); ("portrait", "1080x1920"); ("landscape", "1920x1080")].

(** [set_resolution] (lines 32-38). *)
Definition set_resolution (aspect : string) : Z * Z :=
  if aspect =? "square" then (1080, 1080)
  else if aspect =? "portrait" then (1080, 1920)
  else (1920, 1080).

(** Lines 44-47: [if args.subset:] is false for [None] and for []. *)
Definition select_scenes (a : Args) (scenes : list string) : list string :=
  match subset a with
  | Some (n :: ns) => filter (fun s => py_in s (n :: ns)) scenes
  | _ => scenes
  end.

(** Lines 51-55, with [scene.render.fps] read as the [args.fps] just
    assigned to it. *)
Definition frame_end (a : Args) (name : string) : Z :=
  let is_static := py_in name (static_ids a) in
  let seconds := if is_static then static_seconds a else seconds a in
  Z.max 2 (py_int (inject_Z (fps a) * seconds)).

Definition frame_start : Z := 1.

(** Lines 58-66: the path of one render. *)
Definition filepath (a : Args) (exercise_id wh : string) : string :=
  let out_dir := os_path_join (out a) exercise_id in
  let base := os_path_join out_dir (exercise_id ++ "_v1_") in
  base ++ (wh ++ ".mp4").

(** One render of the aspect loop: aspect, resolution, path, frames. *)
Record RenderCall := mkRenderCall {
  r_exercise_id : string;
  r_aspect : string;
  r_resolution : Z * Z;
  r_filepath : string;
  r_frame_start : Z;
  r_frame_end : Z
}.

Definition render_scene (a : Args) (name : string) : list RenderCall :=
  map (fun '(aspect, wh) =>
         {| r_exercise_id := name;
            r_aspect := aspect;
            r_resolution := set_resolution aspect;
            r_filepath := filepath a name wh;
            r_frame_start := frame_start;
            r_frame_end := frame_end a name |})
      ASPECTS.

(** [main] (lines 40-70): the renders, scene after scene. *)
Definition main (a : Args) (scenes : list string) : list RenderCall :=
  flat_map (render_scene a) (select_scenes a scenes).

(** A render call as a job: (aspect, width, height, path). *)
Definition job_of (rc : RenderCall) : string * Z * Z * string :=
  (r_aspect rc, fst (r_resolution rc), snd (r_resolution rc), r_filepath rc).

Definition expand (a : Args) (exercise_id : string)
  : list (string * Z * Z * string) :=
  map job_of (render_scene a exercise_id).

End Catalog.

(* ------------------------------------------------------------------ *)
(** ** repcue_render_addon.py *)

Module Addon.
Import Py.

(** [REPCUE_Props] (lines 35-65), the fields [execute] reads for the
    frame range. *)
Record Props := mkProps {
  seconds : Q;
  static_seconds : Q;
  is_static : bool
}.

(** [REPCUE_OT_render.execute], lines 78-81; [scene_fps] is
    [scn.render.fps]. *)
Definition fps (scene_fps : Z) : Z := py_or scene_fps 30.

Definition duration (props : Props) : Q :=
  if is_static props then static_seconds props else seconds props.

Definition frame_start : Z := 1.

Definition frame_end (props : Props) (scene_fps : Z) : Z :=
  Z.max 2 (py_int (duration props * inject_Z (fps scene_fps))).

End Addon.

(* ------------------------------------------------------------------ *)
(** ** build_catalog_blend.py *)

Module BuildCatalog.
Import Py.

(** [set_timeline] (lines 47-50): the frame range it assigns. *)
Definition set_timeline (fps : Z) (seconds : Q) : Bpy.Scene :=
  {| Bpy.frame_start := 1;
     Bpy.frame_end := Z.max 2 (py_int (inject_Z fps * seconds)) |}.

End BuildCatalog.

(* ------------------------------------------------------------------ *)
(** ** The arithmetic of the scripts on IEEE doubles *)

Module Binary64.
Local Open Scope float_scope.

(** [int(x)]: the integer part of a finite double; [None] stands for the
    error Python raises on an infinity or a NaN. *)
Definition py_int (x : float) : option Z :=
  match Prim2SF x with
  | S754_zero _ => Some 0%Z
  | S754_finite s m e =>
      let v := if (0 <=? e)%Z then (Z.pos m * 2 ^ e)%Z
               else Z.quot (Z.pos m) (2 ^ (- e)) in
      Some (if s then (- v)%Z else v)
  | _ => None
  end.

(** Line 176 of blender_batch_render.py; [fps] is the int as a double. *)
Definition batch_frame_end (seconds fps : float) : option Z :=
  py_int (seconds * fps).

(** Line 55 of render_catalog_scenes.py, line 80 of the add-on. *)
Definition clamped_frame_end (seconds fps : float) : option Z :=
  option_map (Z.max 2) (py_int (seconds * fps)).

(** Lines 183, 184 and 187-189 of blender_batch_render.py; the frame
    numbers are the ints as doubles. *)
Definition orig (fstart fend : float) : float :=
  if PrimFloat.ltb fstart fend then fend - fstart else 1.

Definition scale (frame_start frame_end fstart fend : float) : float :=
  (frame_end - frame_start + 1) / orig fstart fend.

Definition remap (frame_start fstart sc x : float) : float :=
  (x - fstart) * sc + frame_start.

End Binary64.

(* ------------------------------------------------------------------ *)
(** ** The specification's wording, for comparison with the code *)

Module Spec.

(** TargetRange: "computed from configured seconds x fps, rounded down,
    with a floor of 2 frames". *)
Definition target_end_frame (fps : Z) (seconds : Q) : Z :=
  Z.max 2 (Qfloor (inject_Z fps * seconds)).

(** Output layout: "outputRoot/<exerciseId>/<exerciseId>_v1_<W>x<H>.<ext>",
    as a string. *)
Definition output_path (output_root exercise_id wh : string) : string :=
  (output_root ++ "/" ++ exercise_id ++ "/" ++ exercise_id ++ "_v1_" ++ wh
   ++ ".mp4")%string.

(** Retimer: "sourceLength = max(lastFrame - firstFrame, 1)". *)
Definition source_length (first_frame last_frame : Q) : Q :=
  Qmax (last_frame - first_frame) 1.

(** "targetLength = endFrame - startFrame + 1". *)
Definition target_length (start_frame end_frame : Z) : Q :=
  inject_Z (end_frame - start_frame + 1).

(** "time' = (time - firstFrame) * scale + startFrame" with
    "scale = targetLength / sourceLength". *)
Definition retime_time (first_frame last_frame : Q) (start_frame end_frame : Z)
           (time : Q) : Q :=
  ((time - first_frame)
   * (target_length start_frame end_frame / source_length first_frame last_frame)
   + inject_Z start_frame)%Q.

End Spec.

(* ------------------------------------------------------------------ *)
(** ** Sample catalogs *)

Module Samples.
Import Bpy Run.
Local Open Scope string_scope.

Definition args (catalog : list string) : Batch.Args :=
  Batch.mkArgs "src" "out" catalog 30 (22 # 10) 10.

Definition mesh : Object := mkObject "Body" MESH None [].

(** An armature with nothing animated on it. *)
Definition bare_rig : Object := mkObject "Armature" ARMATURE None ["Hips"].

(** An armature whose action has one curve, keyed at frames 10, 40, 70. *)
Definition squat_action : Action :=
  mkAction "Squat"
    [ mkFCurve "location" 2
        [ mkKeyframe 10 0 9 0 11 0;
          mkKeyframe 40 1 39 1 41 1;
          mkKeyframe 70 0 69 0 71 0 ] ].

Definition animated_rig : Object :=
  mkObject "Armature" ARMATURE (Some (mkAnimData (Some squat_action) [])) ["Hips"].

(** A world given by its files: each path with what importing it does.
    Every action spans frames 10 to 70. *)
Fixpoint lookup (files : list (string * result (list Object))) (path : string)
  : option (result (list Object)) :=
  match files with
  | [] => None
  | (p, r) :: rest => if p =? path then Some r else lookup rest path
  end.

Definition world (files : list (string * result (list Object))) : Batch.World :=
  {| Batch.path_exists :=
       fun path => match lookup files path with Some _ => true | None => false end;
     Batch.run_importer :=
       fun _ path => match lookup files path with Some r => r | None => Ok [] end;
     Batch.frame_range := fun _ => (10, 70)%Q |}.

(** Three ids, the second without a file. *)
Definition middle_missing : Batch.World :=
  world [ ("src/squats.fbx", Ok [mesh; animated_rig]);
          ("src/lunges.glb", Ok [bare_rig]) ].

(** A file the FBX importer rejects. *)
Definition broken_first : Batch.World :=
  world [ ("src/squats.fbx", Raise (RuntimeError "Error: could not read file"));
          ("src/lunges.glb", Ok [bare_rig]) ].

(** An id that is the empty string, with a file [src/.fbx]. *)
Definition hidden_file : Batch.World :=
  world [ ("src/.fbx", Ok [bare_rig]);
          ("src/lunges.glb", Ok [bare_rig]) ].

(** An import that brings a mesh and no armature. *)
Definition mesh_only : Batch.World :=
  world [ ("src/squats.glb", Ok [mesh]) ].

(** An import that brings an armature with no action. *)
Definition rig_without_action : Batch.World :=
  world [ ("src/squats.fbx", Ok [mesh; bare_rig]) ].

End Samples.

(* ------------------------------------------------------------------ *)
(** ** The command line after Blender's own arguments *)

Module Cli.
Import Py.
Local Open Scope string_scope.

(** [argv.index(x)], used only where [x in argv]. *)
Fixpoint index_of (x : string) (argv : list string) : nat :=
  match argv with
  | [] => O
  | y :: rest => if y =? x then O else S (index_of x rest)
  end.

(** [argv[argv.index("--")+1:] if "--" in argv else []]: the first
    statement of every script that parses a command line. *)
Definition script_args (argv : list string) : list string :=
  if py_in "--" argv then skipn (S (index_of "--" argv)) argv else [].

End Cli.

(* ------------------------------------------------------------------ *)
(** ** build_catalog_blend.py: the whole loop *)

Module Builder.
Import Py Bpy Run.
Local Open Scope string_scope.

(** [parse_argv] (lines 5-20). *)
Record Args := mkArgs {
  template : string;
  src : string;
  out_blend : string;
  ids : list string;
  static_ids : list string;
  seconds : Q;
  static_seconds : Q;
  fps : Z
}.

(** An object of a scene, with [obj.type] and [obj.location]. *)
Record SceneObject := mkSceneObject {
  so_type : ObjectType;
  so_location : Q * Q * Q
}.

(** The scene names the template file holds, the file system, and what
    an importer leaves in [scene.objects] or the error it raises. *)
Record World := mkWorld {
  template_scenes : list string;
  path_exists : string -> bool;
  run_importer : Batch.Importer -> string -> result (list SceneObject)
}.

(** [append_template_scene] (lines 22-30), on the scene names of the
    template; the scene it returns is given by its name.  A name is
    "truthy" when it is not the empty string. *)
Definition preferred (scenes : list string) : option string :=
  if py_in "Scene" scenes then Some "Scene" else hd_error scenes.

Definition append_template_scene (scenes : list string) : result string :=
  let data_to :=
    match preferred scenes with
    | Some name => if name =? "" then [] else [name]
    | None => []
    end in
  match data_to with
  | [] => Raise (RuntimeError "No scene found in template .blend")
  | name :: _ => Ok name
  end.

(** The loop at the end of [import_asset_into_scene] (lines 43-45). *)
Definition center (o : SceneObject) : SceneObject :=
  let '(x, y, z) := so_location o in
  let movable :=
    match so_type o with ARMATURE | MESH => true | _ => false end in
  if movable && py_gt (Qabs x) 100
  then {| so_type := so_type o; so_location := (0, 0, z)%Q |}
  else o.

Definition center_on_origin (objects : list SceneObject) : list SceneObject :=
  map center objects.

(** [import_asset_into_scene] (lines 32-45): the objects of the scene
    afterwards. *)
Definition import_asset_into_scene (w : World) (asset_path : string)
  : result (list SceneObject) :=
  let ext := lower (snd (splitext asset_path)) in
  let imported :=
    if ext =? ".fbx" then run_importer w Batch.FBX asset_path
    else if py_in ext [".glb"; ".gltf"] then run_importer w Batch.GLTF asset_path
    else Raise (RuntimeError ("Unsupported asset format: " ++ ext)) in
  match imported with
  | Ok objects => Ok (center_on_origin objects)
  | Raise e => Raise e
  end.

(** [find_asset] (lines 52-57). *)
Definition ASSET_EXTS : list string := [".fbx"; ".glb"; ".gltf"].

Fixpoint first_existing (exists_ : string -> bool) (src_dir ex_id : string)
         (exts : list string) : option string :=
  match exts with
  | [] => None
  | ext :: rest =>
      let cand := os_path_join src_dir (ex_id ++ ext) in
      if exists_ cand then Some cand
      else first_existing exists_ src_dir ex_id rest
  end.

Definition find_asset (exists_ : string -> bool) (src_dir ex_id : string)
  : option string :=
  first_existing exists_ src_dir ex_id ASSET_EXTS.

(** What one turn of the loop of [main] does for its catalog entry: the
    id it assigns to [scene.name] (line 69), the asset it imports if any,
    the frame range it assigns.  (Line 79 reads [scene.name] back;
    Blender keeps scene names unique, so the name read can differ from
    the id assigned.  The names read back are not modelled.) *)
Record CreatedScene := mkCreatedScene {
  cs_id : string;
  cs_asset : option string;
  cs_timeline : Scene
}.

Definition missing_asset_line (a : Args) (ex_id : string) : string :=
  "[WARN] Missing asset for " ++ ex_id ++ ": expected " ++ ex_id
  ++ ".fbx|.glb in " ++ src a.

Definition timeline (a : Args) (ex_id : string) : Scene :=
  let seconds :=
    if py_in ex_id (static_ids a) then static_seconds a else seconds a in
  BuildCatalog.set_timeline (fps a) seconds.

(** Line 71: [find_asset(args.src, ex_id)]. *)
Definition asset_for (w : World) (a : Args) (ex_id : string) : option string :=
  find_asset (path_exists w) (src a) ex_id.

(** The body of the loop of [main] (lines 65-79). *)
Definition build_scene (w : World) (a : Args) (ex_id : string) : M CreatedScene :=
  (_ <- lift (append_template_scene (template_scenes w)) ;;
   let asset := asset_for w a ex_id in
   (match asset with
    | None => emit (Warn (missing_asset_line a ex_id))
    | Some asset_path =>
        (_ <- lift (import_asset_into_scene w asset_path) ;; ret tt)
    end) ;;;
   ret {| cs_id := ex_id;
          cs_asset := asset;
          cs_timeline := timeline a ex_id |})%run.

(** The loop itself, one record per catalog entry, in order. *)
Fixpoint build_scenes (w : World) (a : Args) (catalog : list string)
  : M (list CreatedScene) :=
  match catalog with
  | [] => ret []
  | ex_id :: rest =>
      (cs <- build_scene w a ex_id ;;
       more <- build_scenes w a rest ;;
       ret (cs :: more))%run
  end.

End Builder.

(* ------------------------------------------------------------------ *)
(** ** repcue_render_addon.py: the renders of the operator *)

Module AddonOp.
Import Py.
Local Open Scope string_scope.

(** Lines 86-92 of [REPCUE_OT_render.execute]; [abs_output_dir] is
    [bpy.path.abspath(props.output_dir)]. *)
Definition filepath (abs_output_dir exercise_id wh : string) : string :=
  let base := os_path_join abs_output_dir (exercise_id ++ "_v1_") in
  base ++ (wh ++ ".mp4").

(** [set_resolution] (lines 24-33). *)
Definition set_resolution (aspect : string) : Z * Z :=
  if aspect =? "square" then (1080, 1080)
  else if aspect =? "portrait" then (1080, 1920)
  else (1920, 1080).

(** The renders of one [execute]: aspect, resolution, path. *)
Definition execute (abs_output_dir exercise_id : string)
  : list (string * (Z * Z) * string) :=
  map (fun '(aspect, wh) =>
         (aspect, set_resolution aspect, filepath abs_output_dir exercise_id wh))
      [("square", "1080x1080"); ("portrait", "1080x1920");
       ("landscape", "1920x1080")].

End AddonOp.

(* ------------------------------------------------------------------ *)
(** ** Helpers for stating properties *)

Module Aux.
Import Py.
Local Open Scope string_scope.

(** A frame size as it is written in a file name: "<width>x<height>". *)
Definition size_label (res : Z * Z) : string :=
  NilZero.string_of_int (Z.to_int (fst res)) ++ "x"
  ++ NilZero.string_of_int (Z.to_int (snd res)).

(** No path separator anywhere in a name. *)
Fixpoint no_sep (s : string) : bool :=
  match s with
  | EmptyString => true
  | String c r => negb (Ascii.eqb c "/") && no_sep r
  end.

(** Some character of a name is not a dot. *)
Fixpoint some_non_dot (s : string) : bool :=
  match s with
  | EmptyString => false
  | String c r => negb (Ascii.eqb c ".") || some_non_dot r
  end.

(** No dot anywhere in a name. *)
Fixpoint no_dot (s : string) : bool :=
  match s with
  | EmptyString => true
  | String c r => negb (Ascii.eqb c ".") && no_dot r
  end.

(** What [os.path.join(root, name)] puts in front of a [name] that does
    not begin with a separator. *)
Definition dir_prefix (root : string) : string :=
  if (String.eqb root "" || ends_with_sep root)%bool then root
  else root ++ "/".

(** A key point sits between its two handles in time. *)
Definition handles_in_order (k : Bpy.Keyframe) : Prop :=
  (Bpy.handle_left_x k <= Bpy.co_x k /\ Bpy.co_x k <= Bpy.handle_right_x k)%Q.

End Aux.

(* ================================================================== *)
(** * Properties *)

(* ------------------------------------------------------------------ *)
(** ** Python primitives: sanity checks *)

Example splitext_plain :
  Py.splitext "src/squats.fbx" = ("src/squats", ".fbx")%string.
Proof. reflexivity. Qed.

Example splitext_hidden : Py.splitext "src/.fbx" = ("src/.fbx", "")%string.
Proof. reflexivity. Qed.

Example splitext_dir_dot : Py.splitext "a.b/c" = ("a.b/c", "")%string.
Proof. reflexivity. Qed.

Example join_plain : Py.os_path_join "out" "squats" = "out/squats"%string.
Proof. reflexivity. Qed.

Example join_absolute : Py.os_path_join "out" "/abs" = "/abs"%string.
Proof. reflexivity. Qed.

Example py_int_toward_zero : Py.py_int (- (1 # 2)) = 0 /\ Qfloor (- (1 # 2)) = -1.
Proof. split; reflexivity. Qed.

(* ------------------------------------------------------------------ *)
(** ** Frame ranges *)

Section FrameRange.

(** Truncation and floor agree on non-negative values. *)
Lemma py_int_floor_nonneg (x : Q) : (0 <= x)%Q -> Py.py_int x = Qfloor x.
Proof.
  destruct x as [n d]; unfold Py.py_int, Qfloor, Qle; simpl.
  intros Hn. apply Z.quot_div_nonneg; lia.
Qed.

(** Truncation is never below the floor, and not positive on negative
    values. *)
Lemma py_int_neg (x : Q) : (x < 0)%Q -> Py.py_int x <= 0 /\ Qfloor x < 0.
Proof.
  destruct x as [n d]; unfold Py.py_int, Qfloor, Qlt; simpl.
  intros Hn. split.
  - rewrite <- (Z.opp_involutive n), Z.quot_opp_l by lia.
    assert (0 <= (- n) ÷ Z.pos d) by (apply Z.quot_pos; lia). lia.
  - apply Z.div_lt_upper_bound; lia.
Qed.

(** Under the clamp [max(2, .)] it makes no difference whether the
    product is truncated or rounded down. *)
Lemma max2_py_int_floor (x : Q) : Z.max 2 (Py.py_int x) = Z.max 2 (Qfloor x).
Proof.
  destruct (Qlt_le_dec x 0) as [Hneg | Hpos].
  - destruct (py_int_neg x Hneg). lia.
  - now rewrite py_int_floor_nonneg.
Qed.

(** render_catalog_scenes.py computes the specified end frame. *)
Lemma catalog_frame_end_spec (a : Catalog.Args) (name : string) :
  Catalog.frame_end a name =
  Spec.target_end_frame (Catalog.fps a)
    (if Py.py_in name (Catalog.static_ids a)
     then Catalog.static_seconds a else Catalog.seconds a).
Proof. unfold Catalog.frame_end, Spec.target_end_frame. apply max2_py_int_floor. Qed.

(** So does the add-on, with the fps it settles on. *)
Lemma addon_frame_end_spec (props : Addon.Props) (scene_fps : Z) :
  Addon.frame_end props scene_fps =
  Spec.target_end_frame (Addon.fps scene_fps) (Addon.duration props).
Proof.
  unfold Addon.frame_end, Spec.target_end_frame.
  rewrite max2_py_int_floor. f_equal. apply Qfloor_comp. ring.
Qed.

(** blender_batch_render.py truncates and does not clamp: it agrees with
    the specified end frame exactly when the product reaches 2. *)
Lemma batch_frame_end_spec (a : Batch.Args) (ex_id : string) :
  (2 <= Batch.duration a ex_id * inject_Z (Batch.fps a))%Q ->
  Bpy.frame_end (Batch.frame_range_for a ex_id) =
  Spec.target_end_frame (Batch.fps a) (Batch.duration a ex_id).
Proof.
  intros H2. unfold Batch.frame_range_for, Spec.target_end_frame.
  cbn [Bpy.frame_end].
  set (x := (Batch.duration a ex_id * inject_Z (Batch.fps a))%Q) in *.
  rewrite (Qfloor_comp (inject_Z (Batch.fps a) * Batch.duration a ex_id) x)
    by (unfold x; ring).
  rewrite py_int_floor_nonneg by lra.
  assert (Qfloor 2 <= Qfloor x) by now apply Qfloor_resp_le.
  change (Qfloor 2) with 2 in *. lia.
Qed.

Lemma frame_start_is_one (a : Batch.Args) (ex_id : string) :
  Bpy.frame_start (Batch.frame_range_for a ex_id) = 1
  /\ Catalog.frame_start = 1 /\ Addon.frame_start = 1.
Proof. repeat split. Qed.

End FrameRange.

(** The two end frames the specification lists, in all three scripts. *)
Example end_frame_rep_30fps :
  Bpy.frame_end
    (Batch.frame_range_for (Batch.mkArgs "src" "out" [] 30 (22 # 10) 10) "squats") = 66
  /\ Catalog.frame_end (Catalog.mkArgs "out" 30 (22 # 10) 10 ["plank"%string] None) "squats" = 66
  /\ Addon.frame_end (Addon.mkProps (22 # 10) 10 false) 30 = 66.
Proof. repeat split. Qed.

Example end_frame_static_30fps :
  Bpy.frame_end
    (Batch.frame_range_for (Batch.mkArgs "src" "out" [] 30 (22 # 10) 10) "plank") = 300
  /\ Catalog.frame_end (Catalog.mkArgs "out" 30 (22 # 10) 10 ["plank"%string] None) "plank" = 300
  /\ Addon.frame_end (Addon.mkProps (22 # 10) 10 true) 30 = 300.
Proof. repeat split. Qed.

(** The catalog builder clamps as well. *)
Lemma build_catalog_frame_end_spec (fps : Z) (seconds : Q) :
  Bpy.frame_end (BuildCatalog.set_timeline fps seconds)
  = Spec.target_end_frame fps seconds.
Proof. unfold BuildCatalog.set_timeline, Spec.target_end_frame; simpl. apply max2_py_int_floor. Qed.

(** C3 (code defect).  The end frame is to be
    [max(2, floor(fps * seconds))] in every pipeline variant.  The batch
    script sets [int(seconds * fps)] with no lower bound: for fps 30 and
    a 0.01 s loop of a rep id it sets end frame 0, below the start frame,
    where the specified value is 2, as the other three scripts compute
    on the same configuration. *)
Theorem batch_frame_end_not_clamped :
  Bpy.frame_start
    (Batch.frame_range_for
       (Batch.mkArgs "src" "out" ["squats"%string] 30 (1 # 100) 10) "squats") = 1
  /\ Bpy.frame_end
       (Batch.frame_range_for
          (Batch.mkArgs "src" "out" ["squats"%string] 30 (1 # 100) 10) "squats") = 0
  /\ Batch.is_static "squats" = false
  /\ Spec.target_end_frame 30 (1 # 100) = 2
  /\ Catalog.frame_end (Catalog.mkArgs "out" 30 (1 # 100) 10 [] None) "squats" = 2
  /\ Addon.frame_end (Addon.mkProps (1 # 100) 10 false) 30 = 2
  /\ Bpy.frame_end (BuildCatalog.set_timeline 30 (1 # 100)) = 2.
Proof. repeat split. Qed.

(** C10.  In the add-on the fps is the scene's render fps, or 30 when
    that is 0; the end frame is [max(2, int(seconds * fps))] with the
    seconds picked by [is_static]. *)
Theorem addon_fps_fallback (props : Addon.Props) (scene_fps : Z) :
  Addon.frame_start = 1
  /\ (scene_fps = 0 ->
      Addon.fps scene_fps = 30
      /\ Addon.frame_end props scene_fps =
         Z.max 2 (Py.py_int (Addon.duration props * inject_Z 30)))
  /\ (scene_fps <> 0 ->
      Addon.fps scene_fps = scene_fps
      /\ Addon.frame_end props scene_fps =
         Z.max 2 (Py.py_int (Addon.duration props * inject_Z scene_fps))).
Proof.
  unfold Addon.frame_end, Addon.fps, Py.py_or. split; [reflexivity | split].
  - intros ->. split; reflexivity.
  - intros Hnz. apply Z.eqb_neq in Hnz. rewrite Hnz. split; reflexivity.
Qed.

Lemma addon_fps_fallback_witness :
  (Addon.fps 0 = 30
   /\ Addon.frame_end (Addon.mkProps (22 # 10) 10 false) 0 = 66)
  /\ (Addon.fps 24 = 24
      /\ Addon.frame_end (Addon.mkProps (22 # 10) 10 false) 24 = 52).
Proof.
  destruct (addon_fps_fallback (Addon.mkProps (22 # 10) 10 false) 0) as [_ [H0 _]].
  destruct (addon_fps_fallback (Addon.mkProps (22 # 10) 10 false) 24) as [_ [_ H24]].
  split.
  - destruct (H0 eq_refl) as [Hf He]. split; [exact Hf | rewrite He; reflexivity].
  - assert (Hnz : 24 <> 0) by lia.
    destruct (H24 Hnz) as [Hf He]. split; [exact Hf | rewrite He; reflexivity].
Defined.

(* ------------------------------------------------------------------ *)
(** ** Retiming *)

Section Retimer.
Import Bpy.
Local Open Scope Q_scope.

Variable scene : Scene.
Variables fstart fend : Q.

(** The divisor of line 184 is positive whatever the action's range. *)
Lemma orig_pos : 0 < Batch.orig fstart fend.
Proof.
  unfold Batch.orig, Py.py_gt.
  destruct (Qle_bool fend fstart) eqn:E; simpl; [reflexivity |].
  apply not_true_iff_false in E. rewrite Qle_bool_iff in E. lra.
Qed.

Lemma orig_degenerate : fend <= fstart -> Batch.orig fstart fend = 1.
Proof.
  intros H. unfold Batch.orig, Py.py_gt.
  apply Qle_bool_iff in H. now rewrite H.
Qed.

Lemma orig_proper : fstart < fend -> Batch.orig fstart fend = fend - fstart.
Proof.
  intros H. unfold Batch.orig, Py.py_gt.
  destruct (Qle_bool fend fstart) eqn:E; simpl; [| reflexivity].
  apply Qle_bool_iff in E. lra.
Qed.

(** So the division of line 184 never raises. *)
Lemma scale_defined :
  Batch.scale scene fstart fend =
  Some (inject_Z (frame_end scene - frame_start scene + 1) / Batch.orig fstart fend).
Proof.
  unfold Batch.scale, Py.py_truediv.
  destruct (Qeq_bool (Batch.orig fstart fend) 0) eqn:E; [| reflexivity].
  apply Qeq_bool_eq in E. pose proof orig_pos as Hpos. lra.
Qed.

Lemma retime_defined (curve : list Keyframe) :
  Batch.retime curve (fstart, fend) scene =
  Some (map (Batch.retime_keyframe scene fstart
               (inject_Z (frame_end scene - frame_start scene + 1)
                / Batch.orig fstart fend))
            curve).
Proof. unfold Batch.retime. now rewrite scale_defined. Qed.

(** The code's source length is the specification's, except on a range
    shorter than one frame. *)
Lemma orig_is_source_length :
  fend <= fstart \/ 1 <= fend - fstart ->
  Batch.orig fstart fend == Spec.source_length fstart fend.
Proof.
  unfold Spec.source_length. intros [Hd | Hl].
  - rewrite orig_degenerate by assumption.
    symmetry. apply Q.max_r. lra.
  - rewrite orig_proper by lra.
    symmetry. apply Q.max_l. lra.
Qed.

(** With that proviso the code's map is the specification's formula. *)
Lemma remap_is_retime_time (x : Q) :
  fend <= fstart \/ 1 <= fend - fstart ->
  exists sc,
    Batch.scale scene fstart fend = Some sc
    /\ Batch.remap scene fstart sc x
       == Spec.retime_time fstart fend (frame_start scene) (frame_end scene) x.
Proof.
  intros Hrange. rewrite scale_defined. eexists. split; [reflexivity |].
  unfold Batch.remap, Spec.retime_time, Spec.target_length.
  now rewrite (orig_is_source_length Hrange).
Qed.

Lemma remap_monotone (sc x y : Q) :
  0 <= sc -> x <= y ->
  Batch.remap scene fstart sc x <= Batch.remap scene fstart sc y.
Proof. unfold Batch.remap. intros Hsc Hxy. nra. Qed.

Lemma scale_value_pos :
  (frame_start scene <= frame_end scene)%Z ->
  0 < inject_Z (frame_end scene - frame_start scene + 1) / Batch.orig fstart fend.
Proof.
  intros Hse. apply Qlt_shift_div_l; [apply orig_pos |].
  rewrite Qmult_0_l. change 0 with (inject_Z 0). rewrite <- Zlt_Qlt. lia.
Qed.

End Retimer.

Section RetimerClaims.
Import Bpy.
Local Open Scope Q_scope.

(** A key point with the given time and handle times, value 0. *)
Let key (l x r : Q) : Keyframe := mkKeyframe x 0 l 0 r 0.

Lemma Sorted_map_monotone (g : Q -> Q) (l : list Q) :
  (forall x y, x <= y -> g x <= g y) ->
  Sorted Qle l -> Sorted Qle (map g l).
Proof.
  intros Hg Hs. induction Hs as [| x l Hs IH Hhd]; simpl; constructor.
  - exact IH.
  - destruct Hhd as [| y l' Hxy]; simpl; constructor. now apply Hg.
Qed.

Lemma times_retimed (scene : Scene) (fstart sc : Q) (curve : list Keyframe) :
  times (map (Batch.retime_keyframe scene fstart sc) curve)
  = map (Batch.remap scene fstart sc) (times curve).
Proof. unfold times. rewrite !map_map. reflexivity. Qed.

(** On a source range shorter than one frame the code divides by the
    range itself, where the specification's [max] would divide by 1. *)
Example orig_below_one_frame :
  Batch.orig 0 (1 # 2) == 1 # 2 /\ Spec.source_length 0 (1 # 2) == 1.
Proof. split; reflexivity. Qed.

(** C1 (as stated, refuted).  With source range 10..70 and target 1..66
    a key at time 70 does not land on 66: it lands on 67. *)
Lemma retime_frame_70_not_66 :
  exists kp',
    Batch.retime [key 69 70 71] (10, 70) (mkScene 1 66) = Some [kp']
    /\ co_x kp' == 67 /\ ~ co_x kp' == 66.
Proof.
  eexists. split; [reflexivity |]. split.
  - reflexivity.
  - unfold Qeq; simpl. discriminate.
Qed.

(** C1 (amended).  With source range 10..70 and target 1..66 the retimer
    applies [time' = (time - 10) * scale + 1], [scale = 66 / 60], to the
    time and both handle times of every key point of every curve, and
    leaves the values alone; it sends time 10 to 1, time 40 to 34 and
    time 70 to 67, one frame past the target's end frame. *)
Theorem retime_10_70_onto_1_66 (curve : list Keyframe) :
  let scene := mkScene 1 66 in
  exists sc,
    Batch.scale scene 10 70 = Some sc
    /\ sc == Spec.target_length 1 66 / Spec.source_length 10 70
    /\ Batch.retime curve (10, 70) scene
       = Some (map (Batch.retime_keyframe scene 10 sc) curve)
    /\ (forall kp,
          let kp' := Batch.retime_keyframe scene 10 sc kp in
          co_x kp' == Spec.retime_time 10 70 1 66 (co_x kp)
          /\ handle_left_x kp' == Spec.retime_time 10 70 1 66 (handle_left_x kp)
          /\ handle_right_x kp' == Spec.retime_time 10 70 1 66 (handle_right_x kp)
          /\ co_y kp' = co_y kp
          /\ handle_left_y kp' = handle_left_y kp
          /\ handle_right_y kp' = handle_right_y kp)
    /\ Batch.remap scene 10 sc 10 == 1
    /\ Batch.remap scene 10 sc 40 == 34
    /\ Batch.remap scene 10 sc 70 == 67.
Proof.
  intros scene. eexists. split; [reflexivity |].
  assert (Hsc : inject_Z (66 - 1 + 1) / (70 - 10)
                == Spec.target_length 1 66 / Spec.source_length 10 70)
    by reflexivity.
  split; [exact Hsc |]. split; [reflexivity |]. split.
  - intros kp kp'. unfold kp', Batch.retime_keyframe, Batch.remap,
      Spec.retime_time; simpl.
    repeat split; rewrite <- Hsc; reflexivity.
  - repeat split.
Qed.

(** C6.  A degenerate source range ([fend <= fstart]) divides by exactly
    1: the scale is the target length, and retiming returns a curve.  For
    [fstart = fend = 5] and a 30-frame target the scale is 30. *)
Theorem retime_degenerate_source
        (curve : list Keyframe) (fstart fend : Q) (scene : Scene) :
  fend <= fstart ->
  Batch.orig fstart fend = 1
  /\ (exists sc, Batch.scale scene fstart fend = Some sc
                 /\ sc == Spec.target_length (frame_start scene) (frame_end scene))
  /\ (exists curve', Batch.retime curve (fstart, fend) scene = Some curve'
                     /\ List.length curve' = List.length curve)
  /\ (exists sc, Batch.scale (mkScene 1 30) 5 5 = Some sc /\ sc == 30).
Proof.
  intros Hdeg. pose proof (orig_degenerate fstart fend Hdeg) as Horig.
  split; [exact Horig |]. split; [| split].
  - rewrite scale_defined, Horig. eexists. split; [reflexivity |].
    unfold Spec.target_length. field.
  - rewrite retime_defined. eexists. split; [reflexivity |]. apply List.length_map.
  - eexists. split; reflexivity.
Qed.

Lemma retime_degenerate_source_witness :
  5 <= 5
  /\ Batch.orig 5 5 = 1
  /\ exists curve', Batch.retime [key 4 5 6] (5, 5) (mkScene 1 30) = Some curve'
                    /\ List.length curve' = 1%nat.
Proof.
  assert (H : 5 <= 5) by (unfold Qle; simpl; lia).
  split; [exact H |].
  destruct (retime_degenerate_source [key 4 5 6] 5 5 (mkScene 1 30) H)
    as [Ho [_ [Hc _]]].
  split; [exact Ho | exact Hc].
Defined.

(** C7.  When the target's end frame is not before its start frame,
    retiming a curve whose key times are non-decreasing returns a curve
    whose key times are non-decreasing. *)
Theorem retime_preserves_time_order
        (curve : list Keyframe) (fstart fend : Q) (scene : Scene) :
  (frame_start scene <= frame_end scene)%Z ->
  Sorted Qle (times curve) ->
  exists curve',
    Batch.retime curve (fstart, fend) scene = Some curve'
    /\ Sorted Qle (times curve').
Proof.
  intros Hse Hsorted. rewrite retime_defined. eexists. split; [reflexivity |].
  rewrite times_retimed. apply Sorted_map_monotone; [| exact Hsorted].
  intros x y Hxy. apply remap_monotone; [| exact Hxy].
  apply Qlt_le_weak. now apply scale_value_pos.
Qed.

Lemma retime_preserves_time_order_witness :
  exists curve',
    Batch.retime [key 9 10 11; key 39 40 41; key 69 70 71] (10, 70) (mkScene 1 66)
    = Some curve'
    /\ Sorted Qle (times curve').
Proof.
  apply retime_preserves_time_order.
  - simpl. lia.
  - unfold times; simpl.
    repeat (constructor; try (unfold Qle; simpl; lia)).
Defined.

(** The retimer does not put an unordered curve in order. *)
Example retime_keeps_disorder :
  exists curve',
    Batch.retime [key 39 40 41; key 9 10 11] (10, 70) (mkScene 1 66) = Some curve'
    /\ ~ Sorted Qle (times curve').
Proof.
  eexists. split; [reflexivity |].
  intros Hs. apply Sorted_inv in Hs. destruct Hs as [_ Hhd].
  apply HdRel_inv in Hhd. revert Hhd. unfold Qle; simpl. lia.
Qed.

(** A second pass with the same ranges scales the first pass again. *)
Lemma remap_twice (scene : Scene) (fstart sc x : Q) :
  Batch.remap scene fstart sc (Batch.remap scene fstart sc x)
  == (x - fstart) * (sc * sc)
     + (inject_Z (frame_start scene) - fstart) * sc
     + inject_Z (frame_start scene).
Proof. unfold Batch.remap. ring. Qed.

(** What the second pass adds is the first pass's shift, scaled. *)
Lemma remap_twice_shift (scene : Scene) (fstart sc x : Q) :
  Batch.remap scene fstart sc (Batch.remap scene fstart sc x)
  - Batch.remap scene fstart sc x
  == (Batch.remap scene fstart sc x - x) * sc.
Proof. unfold Batch.remap. ring. Qed.

(** C8.  Retiming is not idempotent: for the curve with one key at time
    40, source range 10..70 and target 1..66, a second pass moves the key
    from 34 to 137/5. *)
Theorem retime_not_idempotent :
  exists (c : list Keyframe) (s : Q * Q) (t : Scene) (c1 c2 : list Keyframe),
    Batch.retime c s t = Some c1
    /\ Batch.retime c1 s t = Some c2
    /\ ~ Forall2 keyframe_eq c2 c1.
Proof.
  exists [key 39 40 41], (10, 70), (mkScene 1 66).
  eexists. eexists. split; [reflexivity |]. split; [reflexivity |].
  intros H. inversion H as [| k2 k1 l2 l1 Hk _]; subst.
  destruct Hk as [Hx _]. revert Hx. unfold Qeq; simpl. discriminate.
Qed.

Example retime_once_and_twice :
  exists c1 c2,
    Batch.retime [key 39 40 41] (10, 70) (mkScene 1 66) = Some c1
    /\ Batch.retime c1 (10, 70) (mkScene 1 66) = Some c2
    /\ Forall2 Qeq (times c1) [34]
    /\ Forall2 Qeq (times c2) [137 # 5].
Proof.
  eexists. eexists. split; [reflexivity |]. split; [reflexivity |].
  split; repeat constructor.
Qed.

End RetimerClaims.

(* ------------------------------------------------------------------ *)
(** ** Render jobs *)

Section Expander.
Import Py.
Local Open Scope string_scope.

Lemma append_assoc (a b c : string) : (a ++ b) ++ c = a ++ (b ++ c).
Proof. induction a as [| x a IH]; simpl; [reflexivity | now rewrite IH]. Qed.

Lemma ends_with_sep_append (a b : string) :
  b <> "" -> ends_with_sep (a ++ b) = ends_with_sep b.
Proof.
  intros Hb. induction a as [| x a IH]; simpl; [reflexivity |].
  destruct (a ++ b) eqn:E; [| exact IH].
  destruct a; simpl in E; [congruence | discriminate].
Qed.

Lemma starts_with_sep_append (a b : string) :
  a <> "" -> starts_with_sep (a ++ b) = starts_with_sep a.
Proof. destruct a; [congruence | reflexivity]. Qed.

Lemma join_plain_path (root ex_id file : string) :
  plain_root root -> plain_id ex_id ->
  os_path_join (os_path_join root ex_id) (ex_id ++ file)
  = root ++ "/" ++ ex_id ++ "/" ++ ex_id ++ file.
Proof.
  intros [Hr Hre] (Hi & His & Hie).
  assert (Hdir : os_path_join root ex_id = root ++ "/" ++ ex_id).
  { unfold os_path_join. rewrite His, Hre.
    apply String.eqb_neq in Hr. now rewrite Hr. }
  rewrite Hdir. unfold os_path_join.
  rewrite (starts_with_sep_append ex_id file Hi), His.
  assert (Hne : root ++ "/" ++ ex_id <> "") by (destruct root; simpl; congruence).
  apply String.eqb_neq in Hne. rewrite Hne.
  assert (Htail : "/" ++ ex_id <> "") by discriminate.
  rewrite (ends_with_sep_append root ("/" ++ ex_id) Htail).
  assert (Hend : ends_with_sep ("/" ++ ex_id) = false).
  { destruct ex_id; [congruence | exact Hie]. }
  rewrite Hend. simpl orb. cbv iota. now rewrite !append_assoc.
Qed.

(** Appending to a joined path is joining the longer last component. *)
Lemma join_append (a b c : string) :
  b <> "" -> os_path_join a b ++ c = os_path_join a (b ++ c).
Proof.
  intros Hb. unfold os_path_join. rewrite (starts_with_sep_append b c Hb).
  destruct (starts_with_sep b); [reflexivity |].
  destruct (_ || _)%bool; now rewrite !append_assoc.
Qed.

(** The catalog script appends the size to a joined prefix; the batch
    script joins the whole file name.  The path is the same. *)
Lemma catalog_filepath_joined (c : Catalog.Args) (ex_id wh : string) :
  Catalog.filepath c ex_id wh
  = os_path_join (os_path_join (Catalog.out c) ex_id)
                 (ex_id ++ "_v1_" ++ wh ++ ".mp4").
Proof.
  unfold Catalog.filepath. rewrite join_append, append_assoc; [reflexivity |].
  destruct ex_id; discriminate.
Qed.

Lemma catalog_filepath_is_batch_filepath
      (a : Batch.Args) (c : Catalog.Args) (ex_id aspect wh : string) :
  Batch.out a = Catalog.out c ->
  In (aspect, wh) Catalog.ASPECTS ->
  Catalog.filepath c ex_id wh = Batch.filepath a ex_id aspect.
Proof.
  intros Hout Hin. rewrite catalog_filepath_joined.
  unfold Batch.filepath. rewrite Hout.
  simpl in Hin. destruct Hin as [H | [H | [H | []]]]; inversion H; reflexivity.
Qed.

(** C5 (as stated, refuted).  An id that begins with a separator is not
    written under the output root: for root "out" and id "/tmp/x" the
    three jobs of render_catalog_scenes.py go to [/tmp/x_v1_<W>x<H>.mp4],
    not to [out//tmp/x//tmp/x_v1_<W>x<H>.mp4]. *)
Lemma absolute_id_leaves_output_root :
  map snd (Catalog.expand (Catalog.mkArgs "out" 30 (22 # 10) 10 [] None) "/tmp/x")
  = [ "/tmp/x_v1_1080x1080.mp4"; "/tmp/x_v1_1080x1920.mp4";
      "/tmp/x_v1_1920x1080.mp4" ]
  /\ map snd (Catalog.expand (Catalog.mkArgs "out" 30 (22 # 10) 10 [] None) "/tmp/x")
     <> [ Spec.output_path "out" "/tmp/x" "1080x1080";
          Spec.output_path "out" "/tmp/x" "1080x1920";
          Spec.output_path "out" "/tmp/x" "1920x1080" ].
Proof. split; [reflexivity | discriminate]. Qed.

(** C5 (amended).  For every output root that is not empty and does not
    end in a separator, and every id that is not empty and neither
    begins nor ends with one, the aspect loop of render_catalog_scenes.py
    issues exactly three jobs, in the order square 1080x1080, portrait
    1080x1920, landscape 1920x1080, each written to
    [root/id/id_v1_<W>x<H>.mp4]; the resolution of [position_camera] and
    the path of line 213 of blender_batch_render.py are the same three,
    in the same order.  They depend on the root and the id alone. *)
Theorem expand_three_jobs (a : Batch.Args) (c : Catalog.Args) (ex_id : string) :
  plain_root (Batch.out a) -> plain_root (Catalog.out c) -> plain_id ex_id ->
  let jobs root :=
    [ ("square", 1080, 1080, Spec.output_path root ex_id "1080x1080");
      ("portrait", 1080, 1920, Spec.output_path root ex_id "1080x1920");
      ("landscape", 1920, 1080, Spec.output_path root ex_id "1920x1080") ] in
  Catalog.expand c ex_id = jobs (Catalog.out c)
  /\ Batch.expand a ex_id = jobs (Batch.out a).
Proof.
  intros Ha Hc Hid jobs. unfold jobs, Spec.output_path. split.
  - unfold Catalog.expand, Catalog.render_scene, Catalog.job_of. simpl.
    rewrite !catalog_filepath_joined.
    now rewrite !(join_plain_path _ ex_id _ Hc Hid).
  - unfold Batch.expand, Batch.filepath. simpl.
    now rewrite !(join_plain_path _ ex_id _ Ha Hid).
Qed.

Lemma expand_three_jobs_witness :
  Catalog.expand (Catalog.mkArgs "out" 30 (22 # 10) 10 [] None) "squats"
  = [ ("square", 1080, 1080, "out/squats/squats_v1_1080x1080.mp4");
      ("portrait", 1080, 1920, "out/squats/squats_v1_1080x1920.mp4");
      ("landscape", 1920, 1080, "out/squats/squats_v1_1920x1080.mp4") ]
  /\ Batch.expand (Batch.mkArgs "src" "out" ["squats"] 30 (22 # 10) 10) "squats"
     = [ ("square", 1080, 1080, "out/squats/squats_v1_1080x1080.mp4");
         ("portrait", 1080, 1920, "out/squats/squats_v1_1080x1920.mp4");
         ("landscape", 1920, 1080, "out/squats/squats_v1_1920x1080.mp4") ].
Proof.
  assert (Hroot : plain_root "out") by (split; [discriminate | reflexivity]).
  assert (Hid : plain_id "squats")
    by (split; [discriminate | split; reflexivity]).
  exact (expand_three_jobs
           (Batch.mkArgs "src" "out" ["squats"] 30 (22 # 10) 10)
           (Catalog.mkArgs "out" 30 (22 # 10) 10 [] None) "squats"
           Hroot Hroot Hid).
Defined.

End Expander.

(* ------------------------------------------------------------------ *)
(** ** The batch loop *)

Section Orchestrator.
Import Bpy Run.
Local Open Scope string_scope.

Variable w : Batch.World.
Variable a : Batch.Args.

(** The aspect loop stops in its first turn, at line 207. *)
Lemma render_aspects_stop (ex_id : string) (scene : Scene) (anim : Animation) :
  Batch.render_aspects a ex_id scene anim
  = ([], Raise (SyntaxError "expected 'else' after 'if' expression")).
Proof. reflexivity. Qed.

(** Normalising never raises: the divisor is positive. *)
Lemma normalize_action_total (scene : Scene) (act : Action) :
  exists act', Batch.normalize_action w scene act = Ok act'.
Proof.
  unfold Batch.normalize_action.
  destruct (Batch.frame_range w act) as [fstart fend].
  rewrite scale_defined. eexists. reflexivity.
Qed.

Lemma animate_total (ex_id : string) (scene : Scene) (rig : option Object) :
  exists anim, Batch.animate w ex_id scene rig = Ok anim.
Proof.
  unfold Batch.animate. destruct (Batch.find_action rig) as [act |].
  - destruct (normalize_action_total scene act) as [act' ->]. now eexists.
  - destruct rig; now eexists.
Qed.

(** The three ways the body of the loop can go: a warning and on to the
    next id; an error out of the import; or, past the import, the error
    of line 207 with nothing rendered. *)
Lemma process_id_cases (ex_id : string) :
  (Batch.find_asset w a ex_id = None
   /\ Batch.process_id w a ex_id
      = ([Warn (Batch.missing_asset_line a ex_id)], Ok tt))
  \/ (exists fpath e,
        Batch.find_asset w a ex_id = Some fpath
        /\ Batch.import_asset w fpath = Raise e
        /\ Batch.process_id w a ex_id = ([], Raise e))
  \/ (exists fpath rig anim,
        Batch.find_asset w a ex_id = Some fpath
        /\ Batch.import_asset w fpath = Ok rig
        /\ Batch.animate w ex_id (Batch.frame_range_for a ex_id) rig = Ok anim
        /\ Batch.process_id w a ex_id
           = ([], Raise (SyntaxError "expected 'else' after 'if' expression"))).
Proof.
  unfold Batch.process_id.
  destruct (Batch.find_asset w a ex_id) as [fpath |]; [| left; split; reflexivity].
  right. destruct (Batch.import_asset w fpath) as [rig | e] eqn:Himp.
  - right. destruct (animate_total ex_id (Batch.frame_range_for a ex_id) rig)
      as [anim Hanim].
    exists fpath, rig, anim. repeat split; try assumption.
    unfold lift, bind. rewrite Hanim. reflexivity.
  - left. exists fpath, e. repeat split. assumption.
Qed.


(** What [import_asset] returns as the rig is an armature. *)
Lemma import_asset_rig_is_armature (path : string) (o : Object) :
  Batch.import_asset w path = Ok (Some o) -> is_armature o = true.
Proof.
  unfold Batch.import_asset.
  destruct (if _ =? ".fbx" then _ else _) as [selected | e]; [| discriminate].
  intros H. injection H as H.
  assert (Hin : In o (filter is_armature selected)).
  { destruct (filter is_armature selected); [discriminate |].
    injection H as ->. now left. }
  apply filter_In in Hin. tauto.
Qed.




(** Past a successful import the body always ends at line 207. *)
Lemma process_id_stops_at_line_207 (ex_id fpath : string) (rig : option Object) :
  Batch.find_asset w a ex_id = Some fpath ->
  Batch.import_asset w fpath = Ok rig ->
  Batch.process_id w a ex_id
  = ([], Raise (SyntaxError "expected 'else' after 'if' expression")).
Proof.
  intros Hfind Himp.
  destruct (process_id_cases ex_id)
    as [[H _] | [(p & e & H & He & _) | (p & r & anim & _ & _ & _ & Hp)]];
    [congruence | | exact Hp].
  rewrite Hfind in H. injection H as <-. congruence.
Qed.

End Orchestrator.

Section BatchClaims.
Import Bpy Run.
Local Open Scope string_scope.


(** The same for the "unsupported file" error of [import_asset]: the id
    [""] finds [src/.fbx], whose extension [splitext] reports as empty. *)
Example unsupported_file_ends_the_run :
  Batch.run Samples.hidden_file (Samples.args [""; "lunges"])
  = ([], Raise (RuntimeError "Unsupported file: src/.fbx")).
Proof. reflexivity. Qed.



(** A warning before the error is kept: the second id has no file, the
    third one's import fails. *)
Example warning_then_import_error :
  Batch.run_ids Samples.broken_first (Samples.args [])
                ["push-ups"; "squats"; "lunges"]
  = ([Warn "[WARN] Missing asset for push-ups in src"],
     Raise (RuntimeError "Error: could not read file")).
Proof. reflexivity. Qed.

End BatchClaims.

Section IdleSwayClaims.
Import Bpy Run.
Local Open Scope string_scope.

(** C4 (as stated, refuted).  "squats" is not a static hold, its import
    brings an armature with no action, and the idle sway is keyed on it
    all the same. *)
Lemma idle_sway_on_a_rep_id :
  Batch.is_static "squats" = false
  /\ Batch.find_asset Samples.rig_without_action (Samples.args ["squats"]) "squats"
     = Some "src/squats.fbx"
  /\ Batch.import_asset Samples.rig_without_action "src/squats.fbx"
     = Ok (Some Samples.bare_rig)
  /\ Batch.animate Samples.rig_without_action "squats"
       (Batch.frame_range_for (Samples.args ["squats"]) "squats")
       (Some Samples.bare_rig)
     = Ok (IdleSway (mkKeyedCurve "squats_Idle" "rotation_euler" 2
                       [(1, 0); (inject_Z 66, 5 # 100)]%Q)).
Proof. repeat split. Qed.

(** The sway is also keyed on a rig that is animated where [find_action]
    does not look: here on the second NLA track, the first being empty. *)
Example idle_sway_on_a_rig_with_nla_animation :
  exists curve,
    Batch.animate Samples.rig_without_action "squats" (mkScene 1 66)
      (Some (mkObject "Armature" ARMATURE
               (Some (mkAnimData None
                        [ mkNlaTrack [];
                          mkNlaTrack [mkNlaStrip (Some Samples.squat_action)] ]))
               ["Hips"]))
    = Ok (IdleSway curve).
Proof. eexists. reflexivity. Qed.

(** C4 (amended).  The idle sway is keyed exactly when the import gives a
    rig on which the script finds no action: a rig without animation
    data, or with animation data that has no active action and whose
    first NLA track is missing, or has no strip, or has a first strip
    without an action (other strips and tracks are not looked at).  The
    id's duration class plays no part.  What is keyed is one action,
    [<id>_Idle], with one curve, [rotation_euler] index 2, of exactly two
    key points with [co] = (start frame, 0) and (end frame, 0.05); the
    curve depends on the frame range alone. *)
Theorem idle_sway_synthesis
        (w : Batch.World) (ex_id : string) (scene : Scene) (rig : option Object) :
  ((exists curve, Batch.animate w ex_id scene rig = Ok (IdleSway curve))
   <-> exists o,
         rig = Some o
         /\ (animation_data o = None
             \/ exists ad,
                  animation_data o = Some ad
                  /\ action ad = None
                  /\ (nla_tracks ad = []
                      \/ exists t ts,
                           nla_tracks ad = t :: ts
                           /\ (strips t = []
                               \/ exists s ss,
                                    strips t = s :: ss
                                    /\ strip_action s = None))))
  /\ (forall curve,
        Batch.animate w ex_id scene rig = Ok (IdleSway curve) ->
        kc_action_name curve = ex_id ++ "_Idle"
        /\ kc_data_path curve = "rotation_euler"
        /\ kc_index curve = 2
        /\ kc_co curve = [ (inject_Z (frame_start scene), 0%Q);
                           (inject_Z (frame_end scene), 5 # 100) ])
  /\ ~ (5 # 100 == 0)%Q
  /\ (forall ex_id',
        kc_co (Batch.idle_curve ex_id' scene) = kc_co (Batch.idle_curve ex_id scene)
        /\ kc_data_path (Batch.idle_curve ex_id' scene)
           = kc_data_path (Batch.idle_curve ex_id scene)
        /\ kc_index (Batch.idle_curve ex_id' scene)
           = kc_index (Batch.idle_curve ex_id scene)).
Proof.
  split; [| split; [| split]].
  - unfold Batch.animate, Batch.find_action. split.
    + intros [curve H]. destruct rig as [o |]; [| discriminate].
      exists o. split; [reflexivity |].
      destruct (animation_data o) as [ad |]; [| now left].
      right. exists ad. split; [reflexivity |].
      destruct (action ad) as [act |].
      { destruct (Batch.normalize_action w scene act); discriminate. }
      split; [reflexivity |].
      destruct (nla_tracks ad) as [| t ts]; [now left |].
      right. exists t, ts. split; [reflexivity |].
      destruct (strips t) as [| st ss]; [now left |].
      right. exists st, ss. split; [reflexivity |].
      destruct (strip_action st) as [act |]; [| reflexivity].
      destruct (Batch.normalize_action w scene act); discriminate.
    + intros (o & -> & [Hno | (ad & Had & Hact & Hnla)]).
      * rewrite Hno. now eexists.
      * rewrite Had, Hact.
        destruct Hnla as [-> | (t & ts & -> & [-> | (st & ss & -> & ->)])];
          now eexists.
  - unfold Batch.animate. intros curve.
    destruct (Batch.find_action rig) as [act0 |].
    + destruct (Batch.normalize_action w scene act0); discriminate.
    + destruct rig; [| discriminate]. intros H. injection H as <-.
      repeat split.
  - unfold Qeq; simpl. discriminate.
  - intros ex_id'. repeat split.
Qed.

Lemma idle_sway_synthesis_witness :
  exists curve,
    Batch.animate Samples.rig_without_action "squats" (mkScene 1 66)
                  (Some Samples.bare_rig)
    = Ok (IdleSway curve)
    /\ kc_co curve = [ (inject_Z 1, 0%Q); (inject_Z 66, 5 # 100) ].
Proof.
  destruct (idle_sway_synthesis Samples.rig_without_action "squats" (mkScene 1 66)
              (Some Samples.bare_rig)) as [[_ Hinv] [Hshape _]].
  destruct Hinv as [curve Hcurve].
  - exists Samples.bare_rig. split; [reflexivity | now left].
  - exists curve. split; [exact Hcurve |].
    now destruct (Hshape curve Hcurve) as (_ & _ & _ & Hco).
Defined.

(** C9 (code defect).  The import of "squats" brings a mesh and no
    armature.  Up to the aspect loop the script does what is expected of
    it: no action is found, no idle sway is keyed, no warning is
    printed.  The three renders are not executed: the first statement of
    the aspect loop, line 207, is not Python, and the run ends there
    with nothing rendered. *)
Theorem no_armature_stops_before_rendering :
  Batch.find_asset Samples.mesh_only (Samples.args ["squats"]) "squats"
  = Some "src/squats.glb"
  /\ Batch.import_asset Samples.mesh_only "src/squats.glb" = Ok None
  /\ Batch.find_action None = None
  /\ Batch.animate Samples.mesh_only "squats"
       (Batch.frame_range_for (Samples.args ["squats"]) "squats") None
     = Ok NoAnimation
  /\ Batch.run Samples.mesh_only (Samples.args ["squats"])
     = ([], Raise (SyntaxError "expected 'else' after 'if' expression"))
  /\ renders (fst (Batch.run Samples.mesh_only (Samples.args ["squats"]))) = []
  /\ warnings (fst (Batch.run Samples.mesh_only (Samples.args ["squats"]))) = [].
Proof. repeat split. Qed.

End IdleSwayClaims.

(* ------------------------------------------------------------------ *)
(** ** The named values in double precision *)

Section Doubles.
Local Open Scope float_scope.

(** 2.2 and 0.01 as Python reads them: the nearest doubles. *)
Let d2_2 : float := 0x1.199999999999ap+1.
Let d0_01 : float := 0x1.47ae147ae147bp-7.

Example binary64_end_frames :
  Binary64.batch_frame_end d2_2 30 = Some 66%Z
  /\ Binary64.batch_frame_end 10 30 = Some 300%Z
  /\ Binary64.clamped_frame_end d2_2 30 = Some 66%Z
  /\ Binary64.clamped_frame_end 10 30 = Some 300%Z
  /\ Binary64.batch_frame_end d0_01 30 = Some 0%Z
  /\ Binary64.clamped_frame_end d0_01 30 = Some 2%Z.
Proof. repeat split; vm_compute; reflexivity. Qed.

Example binary64_retime_10_70_onto_1_66 :
  let sc := Binary64.scale 1 66 10 70 in
  Binary64.remap 1 10 sc 10 = 1
  /\ Binary64.remap 1 10 sc 40 = 34
  /\ Binary64.remap 1 10 sc 70 = 67
  /\ PrimFloat.eqb (Binary64.remap 1 10 sc 70) 66 = false
  /\ PrimFloat.eqb (Binary64.remap 1 10 sc (Binary64.remap 1 10 sc 40)) 34 = false.
Proof. repeat split; vm_compute; reflexivity. Qed.

Example binary64_degenerate_scale : Binary64.scale 1 30 5 5 = 30.
Proof. vm_compute. reflexivity. Qed.

End Doubles.

(* ================================================================== *)
(** * Further properties of the scripts *)

(* ------------------------------------------------------------------ *)
(** ** The command line *)

Section CommandLine.
Import Py.
Local Open Scope string_scope.

Lemma py_in_In (s : string) (xs : list string) : py_in s xs = true <-> In s xs.
Proof.
  unfold py_in. rewrite existsb_exists. split.
  - intros [x [Hin Heq]]. apply String.eqb_eq in Heq. now subst.
  - intros Hin. exists s. split; [exact Hin | apply String.eqb_refl].
Qed.

Lemma py_in_not_In (s : string) (xs : list string) :
  py_in s xs = false <-> ~ In s xs.
Proof.
  rewrite <- py_in_In. destruct (py_in s xs); split; congruence.
Qed.

Lemma index_of_skip (x : string) (pre post : list string) :
  ~ In x pre ->
  Cli.index_of x (pre ++ x :: post) = List.length pre.
Proof.
  induction pre as [| y pre IH]; simpl; intros Hnot.
  - now rewrite String.eqb_refl.
  - destruct (y =? x) eqn:E.
    + apply String.eqb_eq in E. tauto.
    + f_equal. apply IH. tauto.
Qed.

(** X1.  The script sees exactly what follows the first "--" on
    Blender's command line, later "--" included; without a "--" it sees
    nothing at all. *)
Theorem script_args_after_separator :
  (forall pre post,
      ~ In "--" pre -> Cli.script_args (pre ++ "--" :: post) = post)
  /\ (forall argv, ~ In "--" argv -> Cli.script_args argv = []).
Proof.
  unfold Cli.script_args. split.
  - intros pre post Hnot.
    assert (Hin : py_in "--" (pre ++ "--" :: post) = true).
    { apply py_in_In, in_or_app. right. now left. }
    rewrite Hin, (index_of_skip "--" pre post Hnot).
    clear. induction pre as [| y pre IH]; [reflexivity | exact IH].
  - intros argv Hnot. apply py_in_not_In in Hnot. now rewrite Hnot.
Qed.

Lemma script_args_after_separator_witness :
  Cli.script_args ["blender"; "-b"; "-P"; "x.py"; "--"; "--src"; "a"; "--"; "b"]
  = ["--src"; "a"; "--"; "b"]
  /\ Cli.script_args ["blender"; "-b"; "-P"; "x.py"] = [].
Proof.
  destruct script_args_after_separator as [Hsome Hnone]. split.
  - apply (Hsome ["blender"; "-b"; "-P"; "x.py"] ["--src"; "a"; "--"; "b"]).
    simpl. intros [H | [H | [H | [H | []]]]]; discriminate.
  - apply Hnone. simpl. intros [H | [H | [H | [H | []]]]]; discriminate.
Defined.

End CommandLine.

(* ------------------------------------------------------------------ *)
(** ** Looking an asset up *)

Section AssetLookup.
Import Py.
Local Open Scope string_scope.

Lemma append_empty_r (a : string) : a ++ "" = a.
Proof. induction a as [| x a IH]; simpl; [reflexivity | now rewrite IH]. Qed.

(** Joining then appending an extension is joining the extended name. *)
Lemma join_append_ext (a b c : string) :
  starts_with_sep c = false ->
  os_path_join a b ++ c = os_path_join a (b ++ c).
Proof.
  intros Hc. destruct b as [| x b].
  - unfold os_path_join. simpl starts_with_sep. simpl append at 3.
    rewrite Hc. destruct (_ || _)%bool; now rewrite ?append_empty_r, ?append_assoc.
  - apply join_append. discriminate.
Qed.

Lemma batch_first_existing_hit (w : Batch.World) (base : string) (exts : list string) :
  match Batch.first_existing w base exts with
  | Some p =>
      exists before ext after,
        exts = (before ++ ext :: after)%list
        /\ p = base ++ ext
        /\ Batch.path_exists w p = true
        /\ Forall (fun e => Batch.path_exists w (base ++ e) = false) before
  | None => Forall (fun e => Batch.path_exists w (base ++ e) = false) exts
  end.
Proof.
  induction exts as [| ext rest IH]; simpl; [constructor |].
  destruct (Batch.path_exists w (base ++ ext)) eqn:E.
  - exists [], ext, rest. repeat split; [exact E | constructor].
  - destruct (Batch.first_existing w base rest) as [p |].
    + destruct IH as (before & ext' & after & -> & -> & Hex & Hnone).
      exists (ext :: before), ext', after. repeat split; [exact Hex |].
      now constructor.
    + now constructor.
Qed.

(** X2.  The batch script's lookup returns an existing file
    [join(src, id) + ext], with [ext] the first of .fbx, .glb, .gltf,
    .blend for which such a file exists; it finds nothing exactly when
    none of the four files exists. *)
Theorem batch_find_asset_first_existing
        (w : Batch.World) (a : Batch.Args) (ex_id : string) :
  let base := os_path_join (Batch.src a) ex_id in
  (forall p,
      Batch.find_asset w a ex_id = Some p ->
      Batch.path_exists w p = true
      /\ exists before ext after,
           Batch.ASSET_EXTS = (before ++ ext :: after)%list
           /\ p = base ++ ext
           /\ forall e, In e before -> Batch.path_exists w (base ++ e) = false)
  /\ (Batch.find_asset w a ex_id = None
      <-> forall ext, In ext Batch.ASSET_EXTS ->
                      Batch.path_exists w (base ++ ext) = false).
Proof.
  intros base. unfold Batch.find_asset. fold base.
  pose proof (batch_first_existing_hit w base Batch.ASSET_EXTS) as H.
  destruct (Batch.first_existing w base Batch.ASSET_EXTS) as [p0 |].
  - destruct H as (before & ext & after & Hsplit & Hp & Hex & Hnone). split.
    + intros p Hp0. injection Hp0 as <-. split; [exact Hex |].
      exists before, ext, after. repeat split; try assumption.
      now apply Forall_forall.
    + split; [discriminate |]. intros Hall.
      rewrite Hp, Hall in Hex; [discriminate |].
      rewrite Hsplit. apply in_or_app. right. now left.
  - split; [discriminate |]. split; [| reflexivity].
    intros _. now apply Forall_forall.
Qed.

Lemma batch_find_asset_first_existing_witness :
  Batch.find_asset Samples.middle_missing (Samples.args []) "lunges"
  = Some "src/lunges.glb"
  /\ Batch.path_exists Samples.middle_missing "src/lunges.glb" = true
  /\ Batch.path_exists Samples.middle_missing "src/lunges.fbx" = false.
Proof.
  assert (Hfind : Batch.find_asset Samples.middle_missing (Samples.args []) "lunges"
                  = Some "src/lunges.glb") by reflexivity.
  destruct (batch_find_asset_first_existing Samples.middle_missing
              (Samples.args []) "lunges") as [Hsome _].
  destruct (Hsome _ Hfind) as [Hex _].
  split; [exact Hfind |]. split; [exact Hex | reflexivity].
Defined.

(** X3.  The catalog builder looks for the same .fbx, .glb and .gltf
    files as the batch script, in the same order, although it joins the
    path the other way round; the batch script alone goes on to try
    .blend. *)
Theorem builder_lookup_within_batch_lookup
        (w : Batch.World) (a : Batch.Args) (ex_id : string) :
  Batch.find_asset w a ex_id
  = match Builder.find_asset (Batch.path_exists w) (Batch.src a) ex_id with
    | Some p => Some p
    | None =>
        let cand := os_path_join (Batch.src a) ex_id ++ ".blend" in
        if Batch.path_exists w cand then Some cand else None
    end.
Proof.
  unfold Batch.find_asset, Builder.find_asset, Batch.ASSET_EXTS,
    Builder.ASSET_EXTS. simpl.
  rewrite <- !join_append_ext by reflexivity.
  repeat (destruct (Batch.path_exists w _); [reflexivity |]).
  reflexivity.
Qed.

End AssetLookup.

(* ------------------------------------------------------------------ *)
(** ** Extensions and the importers *)

Section Extensions.
Import Py Bpy Run.
Local Open Scope string_scope.

Lemma length_append (a b : string) :
  String.length (a ++ b) = (String.length a + String.length b)%nat.
Proof. induction a as [| x a IH]; simpl; [reflexivity | now rewrite IH]. Qed.

Lemma rfind_append (c : ascii) (a b : string) :
  rfind c (a ++ b)
  = match rfind c b with
    | Some i => Some (String.length a + i)%nat
    | None => rfind c a
    end.
Proof.
  induction a as [| d a IH]; simpl.
  - now destruct (rfind c b).
  - rewrite IH. now destruct (rfind c b).
Qed.

Lemma rfind_bound (c : ascii) (s : string) (i : nat) :
  rfind c s = Some i -> (i < String.length s)%nat.
Proof.
  revert i. induction s as [| d s IH]; simpl; intros i; [discriminate |].
  destruct (rfind c s) as [j |].
  - intros H. injection H as <-. specialize (IH j eq_refl). lia.
  - destruct (Ascii.eqb d c); [| discriminate]. intros H. injection H as <-. lia.
Qed.

Lemma rfind_no_sep (s : string) : Aux.no_sep s = true -> rfind "/" s = None.
Proof.
  induction s as [| d s IH]; simpl; [reflexivity |].
  intros H. apply andb_prop in H. destruct H as [Hd Hs].
  rewrite (IH Hs). apply negb_true_iff in Hd. now rewrite Hd.
Qed.

Lemma rfind_no_dot (s : string) : Aux.no_dot s = true -> rfind "." s = None.
Proof.
  induction s as [| d s IH]; simpl; [reflexivity |].
  intros H. apply andb_prop in H. destruct H as [Hd Hs].
  rewrite (IH Hs). apply negb_true_iff in Hd. now rewrite Hd.
Qed.

Lemma substring_prefix (a b : string) :
  substring 0 (String.length a) (a ++ b) = a.
Proof.
  induction a as [| x a IH]; simpl.
  - now destruct b.
  - now rewrite IH.
Qed.

Lemma substring_whole (b : string) : substring 0 (String.length b) b = b.
Proof. induction b as [| x b IH]; simpl; [reflexivity | now rewrite IH]. Qed.

Lemma substring_suffix (a b : string) :
  substring (String.length a) (String.length b) (a ++ b) = b.
Proof.
  induction a as [| x a IH]; simpl; [apply substring_whole | exact IH].
Qed.

(** A character that is not a dot, somewhere in the scanned range, ends
    the scan of [splitext] with "yes". *)
Lemma has_non_dot_found (s : string) (len from i : nat) (c : ascii) :
  (from <= i < from + len)%nat ->
  String.get i s = Some c -> Ascii.eqb c "." = false ->
  has_non_dot s from len = true.
Proof.
  revert from. induction len as [| len IH]; intros from Hi Hget Hc; [lia |].
  simpl. destruct (String.get from s) as [d |] eqn:Hd; [| reflexivity].
  destruct (Ascii.eqb d ".") eqn:Hdot; [| reflexivity].
  apply IH; try assumption.
  assert (from <> i) by (intros ->; congruence). lia.
Qed.

Lemma some_non_dot_get (s : string) :
  Aux.some_non_dot s = true ->
  exists j c,
    (j < String.length s)%nat /\ String.get j s = Some c
    /\ Ascii.eqb c "." = false.
Proof.
  induction s as [| d s IH]; simpl; [discriminate |].
  destruct (Ascii.eqb d ".") eqn:Hd; simpl.
  - intros H. destruct (IH H) as (j & c & Hj & Hget & Hc).
    exists (S j), c. repeat split; [lia | exact Hget | exact Hc].
  - intros _. exists O, d. repeat split; [lia | exact Hd].
Qed.

(** [splitext] gives back a name and an extension put together, when the
    name has a character other than a dot and no separator, and the
    extension is a dot followed by neither dot nor separator. *)
Lemma splitext_name_ext (dir name rest : string) :
  Aux.no_sep name = true -> Aux.some_non_dot name = true ->
  Aux.no_dot rest = true -> Aux.no_sep rest = true ->
  splitext ((dir ++ name) ++ String "." rest)
  = (dir ++ name, String "." rest).
Proof.
  intros Hsep Hname Hrd Hrs.
  remember (dir ++ name) as base eqn:Hbase.
  remember (String "." rest) as ext eqn:Hext.
  assert (Hdot : rfind "." (base ++ ext) = Some (String.length base)).
  { rewrite rfind_append. subst ext. simpl.
    now rewrite (rfind_no_dot rest Hrd), Nat.add_0_r. }
  assert (Hslash : rfind "/" (base ++ ext) = rfind "/" dir).
  { rewrite rfind_append. subst ext. simpl.
    rewrite (rfind_no_sep rest Hrs). subst base.
    now rewrite rfind_append, (rfind_no_sep name Hsep). }
  unfold splitext. rewrite Hdot, Hslash.
  remember (match rfind "/" dir with Some i => S i | None => O end) as f eqn:Hfdef.
  assert (Hf : (f <= String.length dir)%nat).
  { subst f. destruct (rfind "/" dir) as [i |] eqn:E; [| lia].
    apply rfind_bound in E. lia. }
  assert (Hlen : String.length base = (String.length dir + String.length name)%nat)
    by (subst base; apply length_append).
  destruct (some_non_dot_get name Hname) as (j & c & Hj & Hget & Hc).
  assert (Hscan : has_non_dot (base ++ ext) f (String.length base - f) = true).
  { apply (has_non_dot_found _ _ _ (j + String.length dir)%nat c); [lia | | exact Hc].
    rewrite <- (append_correct1 base ext) by lia.
    subst base. now rewrite <- append_correct2. }
  rewrite Hscan.
  assert (Hle : (f <=? String.length base)%nat = true) by (apply Nat.leb_le; lia).
  rewrite Hle. simpl andb. cbv iota.
  rewrite substring_prefix, length_append.
  replace (String.length base + String.length ext - String.length base)%nat
    with (String.length ext) by lia.
  now rewrite substring_suffix.
Qed.

(** A name without a separator is appended to some directory prefix. *)
Lemma join_is_append (a b : string) :
  starts_with_sep b = false -> exists dir, os_path_join a b = dir ++ b.
Proof.
  intros Hb. unfold os_path_join. rewrite Hb.
  destruct (_ || _)%bool.
  - now exists a.
  - exists (a ++ "/"). now rewrite append_assoc.
Qed.

Lemma no_sep_starts (s : string) :
  Aux.no_sep s = true -> starts_with_sep s = false.
Proof.
  destruct s as [| c s]; simpl; [reflexivity |].
  intros H. apply andb_prop in H. destruct H as [Hc _].
  now apply negb_true_iff in Hc.
Qed.

(** X4.  For an id with no path separator and with some character other
    than a dot, the asset the batch loop finds always goes to an
    importer: the "Unsupported file" error of [import_asset] cannot
    occur, and what comes back is the importer's error or the first
    armature it left selected. *)
Theorem batch_found_asset_reaches_importer
        (w : Batch.World) (a : Batch.Args) (ex_id fpath : string) :
  Aux.no_sep ex_id = true -> Aux.some_non_dot ex_id = true ->
  Batch.find_asset w a ex_id = Some fpath ->
  exists importer,
    Batch.import_asset w fpath
    = match Batch.run_importer w importer fpath with
      | Ok selected => Ok (hd_error (filter is_armature selected))
      | Raise e => Raise e
      end.
Proof.
  intros Hsep Hname Hfind.
  destruct (join_is_append (Batch.src a) ex_id (no_sep_starts _ Hsep)) as [dir Hdir].
  unfold Batch.find_asset in Hfind. rewrite Hdir in Hfind.
  unfold Batch.ASSET_EXTS in Hfind. simpl in Hfind.
  unfold Batch.import_asset.
  repeat match type of Hfind with
         | (if ?c then _ else _) = _ => destruct c
         end;
    try discriminate; injection Hfind as <-;
    rewrite splitext_name_ext by (assumption || reflexivity);
    [exists Batch.FBX | exists Batch.GLTF | exists Batch.GLTF | exists Batch.BLEND];
    reflexivity.
Qed.

Lemma batch_found_asset_reaches_importer_witness :
  Batch.import_asset Samples.middle_missing "src/lunges.glb"
  = Ok (Some Samples.bare_rig).
Proof.
  destruct (batch_found_asset_reaches_importer Samples.middle_missing
              (Samples.args []) "lunges" "src/lunges.glb"
              eq_refl eq_refl eq_refl) as [importer H].
  rewrite H. destruct importer; reflexivity.
Defined.

(** X5.  The same holds in the catalog builder: for such an id the asset
    [find_asset] returns is imported, never rejected as an unsupported
    format, and the objects of the scene come back centred. *)
Theorem builder_found_asset_reaches_importer
        (w : Builder.World) (src_dir ex_id asset_path : string) :
  Aux.no_sep ex_id = true -> Aux.some_non_dot ex_id = true ->
  Builder.find_asset (Builder.path_exists w) src_dir ex_id = Some asset_path ->
  exists importer,
    Builder.import_asset_into_scene w asset_path
    = match Builder.run_importer w importer asset_path with
      | Ok objects => Ok (Builder.center_on_origin objects)
      | Raise e => Raise e
      end.
Proof.
  intros Hsep Hname Hfind.
  destruct (join_is_append src_dir ex_id (no_sep_starts _ Hsep)) as [dir Hdir].
  unfold Builder.find_asset, Builder.ASSET_EXTS in Hfind. simpl in Hfind.
  rewrite <- !join_append_ext in Hfind by reflexivity.
  rewrite Hdir in Hfind.
  unfold Builder.import_asset_into_scene.
  repeat match type of Hfind with
         | (if ?c then _ else _) = _ => destruct c
         end;
    try discriminate; injection Hfind as <-;
    rewrite splitext_name_ext by (assumption || reflexivity);
    [exists Batch.FBX | exists Batch.GLTF | exists Batch.GLTF];
    reflexivity.
Qed.

End Extensions.

(* ------------------------------------------------------------------ *)
(** ** More on retiming *)

Section RetimerMore.
Import Bpy Run.
Local Open Scope Q_scope.

Lemma inject_Z_length (s e : Z) :
  inject_Z (e - s + 1) == inject_Z e + 1 - inject_Z s.
Proof.
  unfold Z.sub. rewrite !inject_Z_plus, inject_Z_opp.
  change (inject_Z 1) with 1. ring.
Qed.

(** X6.  A source range with [fstart < fend] is laid onto the scene's
    frames: [fstart] goes to the start frame, [fend] to one frame past
    the end frame, and every distance in time is scaled by the same
    factor, target length over source length. *)
Theorem retime_range_onto_frames (scene : Scene) (fstart fend : Q) :
  fstart < fend ->
  exists sc,
    Batch.scale scene fstart fend = Some sc
    /\ Batch.remap scene fstart sc fstart == inject_Z (frame_start scene)
    /\ Batch.remap scene fstart sc fend == inject_Z (frame_end scene + 1)
    /\ forall t1 t2,
         (Batch.remap scene fstart sc t2 - Batch.remap scene fstart sc t1)
         * (fend - fstart)
         == (t2 - t1) * inject_Z (frame_end scene - frame_start scene + 1).
Proof.
  intros Hlt. rewrite scale_defined, (orig_proper _ _ Hlt).
  eexists. split; [reflexivity |].
  unfold Batch.remap. split; [| split].
  - field. lra.
  - rewrite inject_Z_length, inject_Z_plus. change (inject_Z 1) with 1.
    field. lra.
  - intros t1 t2. field. lra.
Qed.

Lemma retime_range_onto_frames_witness :
  exists sc,
    Batch.scale (mkScene 1 66) 10 70 = Some sc
    /\ Batch.remap (mkScene 1 66) 10 sc 10 == 1
    /\ Batch.remap (mkScene 1 66) 10 sc 70 == 67.
Proof.
  assert (H : 10 < 70) by reflexivity.
  destruct (retime_range_onto_frames (mkScene 1 66) 10 70 H)
    as (sc & Hsc & Hs & He & _).
  exists sc. split; [exact Hsc |]. split; [exact Hs | exact He].
Defined.

(** X7.  Retiming keeps every key point between its handles: when the
    end frame is not before the start frame, a curve whose key points
    all have [handle_left.x <= co.x <= handle_right.x] keeps that. *)
Theorem retime_keeps_handles_in_order
        (curve : list Keyframe) (fstart fend : Q) (scene : Scene) :
  (frame_start scene <= frame_end scene)%Z ->
  Forall Aux.handles_in_order curve ->
  exists curve',
    Batch.retime curve (fstart, fend) scene = Some curve'
    /\ Forall Aux.handles_in_order curve'.
Proof.
  intros Hse Hall. rewrite retime_defined. eexists. split; [reflexivity |].
  apply Forall_map. revert Hall. apply Forall_impl.
  intros k [Hl Hr].
  assert (Hsc : 0 <= inject_Z (frame_end scene - frame_start scene + 1)
                     / Batch.orig fstart fend)
    by (apply Qlt_le_weak; now apply scale_value_pos).
  split; simpl; now apply remap_monotone.
Qed.

Lemma retime_keeps_handles_in_order_witness :
  exists curve',
    Batch.retime [mkKeyframe 10 0 9 0 11 0; mkKeyframe 40 1 39 1 41 1]
                 (10, 70) (mkScene 1 66) = Some curve'
    /\ Forall Aux.handles_in_order curve'.
Proof.
  apply retime_keeps_handles_in_order.
  - simpl. lia.
  - repeat constructor; unfold Qle; simpl; lia.
Defined.

End RetimerMore.

Section NormalizeMore.
Import Bpy Run.
Local Open Scope Q_scope.

(** X10.  An action that already fits is left where it is: when its
    reported range is the scene's start frame to one past its end frame,
    normalising moves no key point and no handle. *)
Theorem normalize_action_already_fitting
        (w : Batch.World) (scene : Scene) (act : Action) :
  (frame_start scene <= frame_end scene)%Z ->
  Batch.frame_range w act
  = (inject_Z (frame_start scene), inject_Z (frame_end scene + 1)) ->
  exists act',
    Batch.normalize_action w scene act = Ok act'
    /\ action_name act' = action_name act
    /\ Forall2 (fun fc fc' =>
                  data_path fc' = data_path fc
                  /\ array_index fc' = array_index fc
                  /\ Forall2 keyframe_eq (keyframe_points fc') (keyframe_points fc))
               (fcurves act) (fcurves act').
Proof.
  intros Hse Hrange. unfold Batch.normalize_action. rewrite Hrange.
  rewrite scale_defined. eexists. split; [reflexivity |]. split; [reflexivity |].
  simpl.
  assert (Hlt : inject_Z (frame_start scene) < inject_Z (frame_end scene + 1))
    by (rewrite <- Zlt_Qlt; lia).
  rewrite (orig_proper _ _ Hlt).
  assert (Hlen : inject_Z (frame_end scene + 1) - inject_Z (frame_start scene)
                 == inject_Z (frame_end scene - frame_start scene + 1)).
  { rewrite inject_Z_length, inject_Z_plus. change (inject_Z 1) with 1. ring. }
  assert (Hpos : 0 < inject_Z (frame_end scene - frame_start scene + 1)).
  { rewrite <- Hlen. lra. }
  induction (fcurves act) as [| fc fcs IH]; simpl; constructor; [| exact IH].
  split; [reflexivity |]. split; [reflexivity |]. simpl.
  induction (keyframe_points fc) as [| k ks IHk]; simpl; constructor; [| exact IHk].
  unfold keyframe_eq, Batch.retime_keyframe, Batch.remap; simpl.
  rewrite Hlen. repeat split; try reflexivity; field; lra.
Qed.

Lemma normalize_action_already_fitting_witness :
  exists act',
    Batch.normalize_action
      (Batch.mkWorld (fun _ => false) (fun _ _ => Ok [])
                     (fun _ => (inject_Z 1, inject_Z 67)))
      (mkScene 1 66)
      (mkAction "Fit" [mkFCurve "location" 2
                         [mkKeyframe 1 0 0 0 2 0; mkKeyframe 67 0 66 0 68 0]])
    = Ok act'
    /\ action_name act' = "Fit"%string.
Proof.
  destruct (normalize_action_already_fitting
              (Batch.mkWorld (fun _ => false) (fun _ _ => Ok [])
                             (fun _ => (inject_Z 1, inject_Z 67)))
              (mkScene 1 66)
              (mkAction "Fit" [mkFCurve "location" 2
                                 [mkKeyframe 1 0 0 0 2 0; mkKeyframe 67 0 66 0 68 0]]))
    as (act' & H & Hn & _).
  - simpl. lia.
  - reflexivity.
  - exists act'. split; [exact H | exact Hn].
Defined.

End NormalizeMore.

(* ------------------------------------------------------------------ *)
(** ** More on frame ranges *)

Section FrameRangeMore.
Import Bpy.
Local Open Scope Q_scope.

(** On values that are not positive, truncation is rounding up. *)
Lemma py_int_nonpos (x : Q) : x <= 0 -> Py.py_int x = (- Qfloor (- x))%Z.
Proof.
  destruct x as [n d]; unfold Py.py_int, Qfloor, Qle, Qopp; simpl.
  intros Hn. rewrite <- (Z.quot_div_nonneg (- n) (Z.pos d)) by lia.
  rewrite Z.quot_opp_l by lia. lia.
Qed.

(** [int(x)] does not depend on how the rational is written. *)
Lemma py_int_comp (x y : Q) : x == y -> Py.py_int x = Py.py_int y.
Proof.
  intros Hxy. destruct (Qlt_le_dec x 0) as [Hneg | Hpos].
  - rewrite !py_int_nonpos by lra. f_equal. apply Qfloor_comp. lra.
  - rewrite !py_int_floor_nonneg by lra. now apply Qfloor_comp.
Qed.

Lemma py_int_monotone (x y : Q) : x <= y -> (Py.py_int x <= Py.py_int y)%Z.
Proof.
  intros Hxy. destruct (Qlt_le_dec x 0) as [Hx | Hx];
    destruct (Qlt_le_dec y 0) as [Hy | Hy].
  - rewrite !py_int_nonpos by lra.
    assert (Qfloor (- y) <= Qfloor (- x))%Z by (apply Qfloor_resp_le; lra). lia.
  - destruct (py_int_neg x Hx) as [Hle _].
    rewrite (py_int_floor_nonneg y Hy).
    assert (Qfloor 0 <= Qfloor y)%Z by now apply Qfloor_resp_le.
    change (Qfloor 0) with 0%Z in *. lia.
  - lra.
  - rewrite !py_int_floor_nonneg by lra. now apply Qfloor_resp_le.
Qed.

Lemma py_int_at_least_two (x : Q) : (2 <= Py.py_int x)%Z <-> 2 <= x.
Proof.
  split.
  - intros H2. destruct (Qlt_le_dec x 0) as [Hneg | Hpos].
    + destruct (py_int_neg x Hneg). lia.
    + rewrite py_int_floor_nonneg in H2 by exact Hpos.
      pose proof (Qfloor_le x) as Hle. rewrite Zle_Qle in H2.
      change (inject_Z 2) with 2 in H2. lra.
  - intros H2. change 2%Z with (Py.py_int 2). now apply py_int_monotone.
Qed.

(** X12.  The batch script's frame range has at least two frames, and
    its end frame is the one the catalog builder's [set_timeline] would
    set for the same fps and duration, exactly when
    [seconds * fps >= 2]. *)
Theorem batch_end_frame_clamped_iff (a : Batch.Args) (ex_id : string) :
  ((2 <= frame_end (Batch.frame_range_for a ex_id))%Z
   <-> 2 <= Batch.duration a ex_id * inject_Z (Batch.fps a))
  /\ (frame_end (Batch.frame_range_for a ex_id)
      = frame_end (BuildCatalog.set_timeline (Batch.fps a) (Batch.duration a ex_id))
      <-> 2 <= Batch.duration a ex_id * inject_Z (Batch.fps a)).
Proof.
  unfold Batch.frame_range_for, BuildCatalog.set_timeline. cbn [frame_end].
  rewrite (py_int_comp (inject_Z (Batch.fps a) * Batch.duration a ex_id)
             (Batch.duration a ex_id * inject_Z (Batch.fps a))) by ring.
  rewrite <- py_int_at_least_two. split; [reflexivity |]. lia.
Qed.

End FrameRangeMore.

Lemma batch_end_frame_clamped_iff_witness :
  (2 <= Bpy.frame_end (Batch.frame_range_for (Samples.args []) "squats"))%Z
  /\ Bpy.frame_end (Batch.frame_range_for (Samples.args []) "squats")
     = Bpy.frame_end (BuildCatalog.set_timeline 30 (22 # 10)).
Proof.
  destruct (batch_end_frame_clamped_iff (Samples.args []) "squats") as [[_ H2] [_ Heq]].
  assert (H : (2 <= (22 # 10) * inject_Z 30)%Q) by (unfold Qle; simpl; lia).
  split; [exact (H2 H) | exact (Heq H)].
Defined.

(* ------------------------------------------------------------------ *)
(** ** The catalog renderer *)

Section CatalogMore.
Import Py.
Local Open Scope string_scope.

Lemma flat_map_length_const {A B : Type} (f : A -> list B) (n : nat) (l : list A) :
  (forall x, List.length (f x) = n) ->
  List.length (flat_map f l) = (n * List.length l)%nat.
Proof.
  intros Hf. induction l as [| x l IH]; simpl; [lia |].
  rewrite List.length_app, Hf, IH. lia.
Qed.

(** X14.  render_catalog_scenes.py renders three files for each scene it
    selects and nothing else.  Without [--subset], or with an empty one,
    every scene is selected; otherwise exactly the scenes named in it, in
    the order of the file: names in [--subset] that match no scene are
    passed over without an error, and a [--subset] that matches nothing
    renders nothing. *)
Theorem catalog_renders_selected_scenes (a : Catalog.Args) (scenes : list string) :
  List.length (Catalog.main a scenes)
  = (3 * List.length (Catalog.select_scenes a scenes))%nat
  /\ map Catalog.r_exercise_id (Catalog.main a scenes)
     = flat_map (fun s => [s; s; s]) (Catalog.select_scenes a scenes)
  /\ (forall names,
        Catalog.subset a = Some names -> names <> [] ->
        Catalog.select_scenes a scenes
        = filter (fun s => py_in s names) scenes
        /\ ((forall s, In s scenes -> ~ In s names) -> Catalog.main a scenes = []))
  /\ (Catalog.subset a = None \/ Catalog.subset a = Some [] ->
      Catalog.select_scenes a scenes = scenes).
Proof.
  split; [| split; [| split]].
  - unfold Catalog.main. now apply flat_map_length_const.
  - unfold Catalog.main.
    induction (Catalog.select_scenes a scenes) as [| s l IH]; [reflexivity |].
    simpl. now rewrite IH.
  - intros names Hsub Hne. unfold Catalog.main, Catalog.select_scenes.
    rewrite Hsub. destruct names as [| n ns]; [congruence |].
    split; [reflexivity |]. intros Hnone.
    assert (Hempty : filter (fun s => py_in s (n :: ns)) scenes = []).
    { induction scenes as [| s l IH]; [reflexivity |]. cbn [filter].
      assert (Hs : py_in s (n :: ns) = false).
      { apply py_in_not_In, Hnone. now left. }
      rewrite Hs. apply IH. intros s' Hin. apply Hnone. now right. }
    now rewrite Hempty.
  - unfold Catalog.select_scenes. now intros [-> | ->].
Qed.

Lemma catalog_renders_selected_scenes_witness :
  Catalog.select_scenes
    (Catalog.mkArgs "out" 30 (22 # 10) 10 [] (Some ["lunges"; "nope"]))
    ["squats"; "lunges"]
  = ["lunges"]
  /\ Catalog.main
       (Catalog.mkArgs "out" 30 (22 # 10) 10 [] (Some ["nope"]))
       ["squats"; "lunges"] = [].
Proof.
  destruct (catalog_renders_selected_scenes
              (Catalog.mkArgs "out" 30 (22 # 10) 10 [] (Some ["lunges"; "nope"]))
              ["squats"; "lunges"]) as (_ & _ & H1 & _).
  destruct (catalog_renders_selected_scenes
              (Catalog.mkArgs "out" 30 (22 # 10) 10 [] (Some ["nope"]))
              ["squats"; "lunges"]) as (_ & _ & H2 & _).
  split.
  - destruct (H1 ["lunges"; "nope"] eq_refl) as [Hsel _]; [discriminate |].
    rewrite Hsel. reflexivity.
  - destruct (H2 ["nope"] eq_refl) as [_ Hnone]; [discriminate |].
    apply Hnone. simpl.
    intros s [<- | [<- | []]] [H | []]; discriminate.
Defined.

End CatalogMore.

(* ------------------------------------------------------------------ *)
(** ** Output paths *)

Section OutputPaths.
Import Py.
Local Open Scope string_scope.

Lemma append_cancel_l (a x y : string) : a ++ x = a ++ y -> x = y.
Proof.
  induction a as [| c a IH]; simpl; [tauto |].
  intros H. injection H as H. now apply IH.
Qed.

(** Two names without a separator, each followed by one, are the same
    name when the whole strings are the same. *)
Lemma split_at_first_sep (a b x y : string) :
  Aux.no_sep a = true -> Aux.no_sep b = true ->
  a ++ String "/" x = b ++ String "/" y -> a = b /\ x = y.
Proof.
  revert b. induction a as [| c a IH]; intros [| d b]; simpl; intros Ha Hb H.
  - injection H as ->. now split.
  - injection H as <- _. simpl in Hb. discriminate.
  - injection H as -> _. simpl in Ha. discriminate.
  - injection H as -> H.
    apply andb_prop in Ha. apply andb_prop in Hb.
    destruct (IH b (proj2 Ha) (proj2 Hb) H) as [-> ->]. now split.
Qed.

Lemma no_sep_ends (s : string) :
  Aux.no_sep s = true -> ends_with_sep s = false.
Proof.
  induction s as [| c s IH]; simpl; [reflexivity |].
  intros H. apply andb_prop in H. destruct H as [Hc Hs].
  destruct s; [now apply negb_true_iff in Hc | now apply IH].
Qed.

Lemma no_sep_plain (s : string) :
  s <> "" -> Aux.no_sep s = true -> plain_id s.
Proof.
  intros Hne Hs. split; [exact Hne |].
  split; [now apply no_sep_starts | now apply no_sep_ends].
Qed.

Lemma join_dir_prefix (root b : string) :
  starts_with_sep b = false -> os_path_join root b = Aux.dir_prefix root ++ b.
Proof.
  intros Hb. unfold os_path_join, Aux.dir_prefix. rewrite Hb.
  destruct (_ || _)%bool; [reflexivity | now rewrite append_assoc].
Qed.

(** The path the scripts build for a file [id ++ file] of the folder of
    [id], for a non-empty id that neither begins nor ends with a
    separator, whatever the root. *)
Lemma joined_path (root ex_id file : string) :
  plain_id ex_id ->
  os_path_join (os_path_join root ex_id) (ex_id ++ file)
  = Aux.dir_prefix root ++ ex_id ++ "/" ++ ex_id ++ file.
Proof.
  intros (Hne & Hst & Hend).
  rewrite (join_dir_prefix root ex_id Hst).
  unfold os_path_join. rewrite (starts_with_sep_append ex_id file Hne), Hst.
  rewrite (ends_with_sep_append (Aux.dir_prefix root) ex_id Hne), Hend.
  assert (Hdir : (Aux.dir_prefix root ++ ex_id =? "") = false).
  { apply String.eqb_neq. intros H.
    destruct (Aux.dir_prefix root); destruct ex_id; simpl in H; congruence. }
  rewrite Hdir. simpl orb. cbv iota. now rewrite append_assoc.
Qed.

(** Two non-empty ids without a separator give the same such path only
    when the ids are the same and the file names are the same. *)
Lemma joined_path_injective (root id1 id2 file1 file2 : string) :
  id1 <> "" -> Aux.no_sep id1 = true ->
  id2 <> "" -> Aux.no_sep id2 = true ->
  os_path_join (os_path_join root id1) (id1 ++ file1)
  = os_path_join (os_path_join root id2) (id2 ++ file2) ->
  id1 = id2 /\ file1 = file2.
Proof.
  intros Hne1 Hs1 Hne2 Hs2.
  rewrite !joined_path by now apply no_sep_plain.
  intros H. apply append_cancel_l in H.
  destruct (split_at_first_sep _ _ _ _ Hs1 Hs2 H) as [<- Hfile].
  split; [reflexivity |]. now apply append_cancel_l in Hfile.
Qed.

(** X16.  An id that begins with a separator escapes both directories:
    its asset is looked up at [id + ext] and its renders are written to
    [id_v1_<size>.mp4], whatever [--src] and [--out] are. *)
Theorem absolute_id_ignores_roots
        (w : Batch.World) (a : Batch.Args) (ex_id aspect : string) :
  starts_with_sep ex_id = true ->
  Batch.find_asset w a ex_id = Batch.first_existing w ex_id Batch.ASSET_EXTS
  /\ Batch.filepath a ex_id aspect
     = ex_id ++ "_v1_" ++ Aux.size_label (Batch.resolution aspect) ++ ".mp4".
Proof.
  intros Habs. unfold Batch.find_asset, Batch.filepath, os_path_join.
  rewrite Habs.
  assert (Hfile : forall rest, starts_with_sep (ex_id ++ rest) = true)
    by (intros rest; destruct ex_id; [discriminate | exact Habs]).
  rewrite Hfile. split; [reflexivity |].
  unfold Batch.resolution.
  destruct (aspect =? "square"); [reflexivity |].
  destruct (aspect =? "portrait"); reflexivity.
Qed.

Lemma absolute_id_ignores_roots_witness :
  Batch.filepath (Samples.args []) "/tmp/x" "portrait" = "/tmp/x_v1_1080x1920.mp4".
Proof.
  destruct (absolute_id_ignores_roots Samples.middle_missing (Samples.args [])
              "/tmp/x" "portrait" eq_refl) as [_ H].
  rewrite H. reflexivity.
Defined.

(** X17.  A separator at the end of [--out] makes no difference: the
    render paths under [root/] are those under [root], for every id. *)
Theorem trailing_separator_in_out
        (src root : string) (ids : list string) (fps : Z) (s ss : Q)
        (ex_id aspect : string) :
  plain_root root ->
  Batch.filepath (Batch.mkArgs src (root ++ "/") ids fps s ss) ex_id aspect
  = Batch.filepath (Batch.mkArgs src root ids fps s ss) ex_id aspect.
Proof.
  intros [Hne Hend]. unfold Batch.filepath. cbn [Batch.out]. f_equal.
  unfold os_path_join. destruct (starts_with_sep ex_id); [reflexivity |].
  apply String.eqb_neq in Hne. rewrite Hne, Hend.
  assert (Hne' : (root ++ "/" =? "") = false)
    by (apply String.eqb_neq; destruct root; discriminate).
  rewrite Hne'.
  assert (Hend' : ends_with_sep (root ++ "/") = true)
    by (rewrite ends_with_sep_append by discriminate; reflexivity).
  rewrite Hend'. simpl orb. cbv iota. apply append_assoc.
Qed.

Lemma trailing_separator_in_out_witness :
  Batch.filepath (Batch.mkArgs "src" "out/" [] 30 2 10) "squats" "square"
  = "out/squats/squats_v1_1080x1080.mp4".
Proof.
  assert (Hroot : plain_root "out") by (split; [discriminate | reflexivity]).
  exact (trailing_separator_in_out "src" "out" [] 30 2 10 "squats" "square" Hroot).
Defined.

(** X18.  The size written in a file name is the resolution the render
    runs at, in the batch script for every aspect string (an unknown one
    is rendered, and named, as landscape) and in the catalog script for
    each of its three aspects. *)
Theorem file_name_states_resolution
        (a : Batch.Args) (c : Catalog.Args) (ex_id aspect : string) :
  Batch.filepath a ex_id aspect
  = os_path_join (os_path_join (Batch.out a) ex_id)
      (ex_id ++ "_v1_" ++ Aux.size_label (Batch.resolution aspect) ++ ".mp4")
  /\ Forall (fun rc =>
               Catalog.r_filepath rc
               = os_path_join (os_path_join (Catalog.out c) ex_id)
                   (ex_id ++ "_v1_" ++ Aux.size_label (Catalog.r_resolution rc)
                      ++ ".mp4"))
            (Catalog.render_scene c ex_id).
Proof.
  split.
  - unfold Batch.filepath, Batch.resolution.
    destruct (aspect =? "square"); [reflexivity |].
    destruct (aspect =? "portrait"); reflexivity.
  - unfold Catalog.render_scene. simpl.
    repeat constructor; cbn [Catalog.r_filepath Catalog.r_resolution];
      now rewrite catalog_filepath_joined.
Qed.

(** X19.  The add-on does not use the per-exercise folder of the
    command-line scripts.  For every output directory, whether or not it
    ends in a separator, and every non-empty id that neither begins nor
    ends with one, the add-on writes [id_v1_<size>.mp4] straight into the
    directory, where render_catalog_scenes.py given the same directory
    writes [id/id_v1_<size>.mp4]; the two paths are never the same. *)
Theorem addon_writes_flat (c : Catalog.Args) (exercise_id wh : string) :
  plain_id exercise_id ->
  AddonOp.filepath (Catalog.out c) exercise_id wh
  = Aux.dir_prefix (Catalog.out c) ++ exercise_id ++ "_v1_" ++ wh ++ ".mp4"
  /\ Catalog.filepath c exercise_id wh
     = Aux.dir_prefix (Catalog.out c) ++ exercise_id ++ "/" ++ exercise_id
       ++ "_v1_" ++ wh ++ ".mp4"
  /\ AddonOp.filepath (Catalog.out c) exercise_id wh
     <> Catalog.filepath c exercise_id wh.
Proof.
  intros Hid.
  assert (Hflat : AddonOp.filepath (Catalog.out c) exercise_id wh
                  = Aux.dir_prefix (Catalog.out c) ++ exercise_id
                    ++ "_v1_" ++ wh ++ ".mp4").
  { destruct Hid as (Hne & Hst & _). unfold AddonOp.filepath.
    rewrite join_append by (destruct exercise_id; discriminate).
    rewrite append_assoc. apply join_dir_prefix.
    now rewrite (starts_with_sep_append _ _ Hne). }
  assert (Hdeep : Catalog.filepath c exercise_id wh
                  = Aux.dir_prefix (Catalog.out c) ++ exercise_id ++ "/"
                    ++ exercise_id ++ "_v1_" ++ wh ++ ".mp4").
  { rewrite catalog_filepath_joined. now apply joined_path. }
  split; [exact Hflat |]. split; [exact Hdeep |].
  rewrite Hflat, Hdeep. intros H.
  apply append_cancel_l in H. apply append_cancel_l in H. discriminate.
Qed.

Lemma addon_writes_flat_witness :
  AddonOp.filepath "/home/u/videos/" "squats" "1080x1080"
  = "/home/u/videos/squats_v1_1080x1080.mp4"
  /\ Catalog.filepath (Catalog.mkArgs "/home/u/videos/" 30 2 10 [] None)
       "squats" "1080x1080"
     = "/home/u/videos/squats/squats_v1_1080x1080.mp4".
Proof.
  assert (Hid : plain_id "squats")
    by (split; [discriminate | split; reflexivity]).
  destruct (addon_writes_flat (Catalog.mkArgs "/home/u/videos/" 30 2 10 [] None)
              "squats" "1080x1080" Hid) as (Hflat & Hdeep & _).
  split; [exact Hflat | exact Hdeep].
Defined.

End OutputPaths.


(* ------------------------------------------------------------------ *)
(** ** The catalog builder *)

Section BuilderProps.
Import Py Bpy Run.
Local Open Scope string_scope.

Lemma center_twice (o : Builder.SceneObject) :
  Builder.center (Builder.center o) = Builder.center o.
Proof.
  destruct o as [ty [[x y] z]].
  assert (H0 : py_gt (Qabs 0) 100 = false) by reflexivity.
  unfold Builder.center. cbn [Builder.so_location Builder.so_type].
  destruct ty; cbn [andb Builder.so_location Builder.so_type]; try reflexivity;
    destruct (py_gt (Qabs x) 100) eqn:E;
    cbn [andb Builder.so_location Builder.so_type];
    rewrite ?H0, ?E; reflexivity.
Qed.

(** X21.  Centring settles at once: a second pass over the objects
    changes nothing.  Afterwards every armature and mesh has
    [|x| <= 100]; an object keeps its type and its height, and an object
    that is neither armature nor mesh is not touched. *)
Theorem center_on_origin_settles (objects : list Builder.SceneObject) :
  Builder.center_on_origin (Builder.center_on_origin objects)
  = Builder.center_on_origin objects
  /\ Forall (fun o =>
               Builder.so_type o = ARMATURE \/ Builder.so_type o = MESH ->
               (Qabs (fst (fst (Builder.so_location o))) <= 100)%Q)
            (Builder.center_on_origin objects)
  /\ Forall2 (fun o o' =>
                Builder.so_type o' = Builder.so_type o
                /\ snd (Builder.so_location o') = snd (Builder.so_location o)
                /\ (Builder.so_type o <> ARMATURE -> Builder.so_type o <> MESH ->
                    o' = o))
             objects (Builder.center_on_origin objects).
Proof.
  unfold Builder.center_on_origin. split; [| split].
  - rewrite map_map. apply map_ext. apply center_twice.
  - apply Forall_map, Forall_forall. intros [ty [[x y] z]] _.
    unfold Builder.center. cbn [Builder.so_location Builder.so_type].
    destruct (py_gt (Qabs x) 100) eqn:E.
    + destruct ty; cbn; intros [H | H]; try discriminate;
        unfold Qle; simpl; lia.
    + rewrite andb_false_r. cbn. intros _.
      unfold py_gt in E. apply negb_false_iff, Qle_bool_iff in E. exact E.
  - induction objects as [| [ty [[x y] z]] l IH]; simpl; constructor; [| exact IH].
    unfold Builder.center. cbn [Builder.so_location Builder.so_type].
    destruct ty; cbn; try (repeat split; congruence);
      destruct (py_gt (Qabs x) 100); cbn; repeat split; congruence.
Qed.

(** X22.  [append_template_scene] returns a scene of the template with a
    non-empty name: the one called "Scene" when there is one, the first
    otherwise.  It raises exactly when the template has no scene at all
    (or none called "Scene" and a first one with an empty name). *)
Theorem append_template_scene_choice (scenes : list string) :
  (forall name,
      Builder.append_template_scene scenes = Ok name ->
      In name scenes /\ name <> ""
      /\ (In "Scene" scenes -> name = "Scene")
      /\ (~ In "Scene" scenes -> hd_error scenes = Some name))
  /\ ((exists e, Builder.append_template_scene scenes = Raise e)
      <-> scenes = [] \/ (~ In "Scene" scenes /\ hd_error scenes = Some "")).
Proof.
  unfold Builder.append_template_scene, Builder.preferred.
  destruct (py_in "Scene" scenes) eqn:Hin.
  - apply py_in_In in Hin. cbn. split.
    + intros name H. injection H as <-. repeat split; try tauto. discriminate.
    + split.
      * intros [e H]. discriminate.
      * intros [-> | [Hnot _]]; [destruct Hin | tauto].
  - apply py_in_not_In in Hin. destruct scenes as [| s l]; cbn.
    + split; [intros name H; discriminate |].
      split; [now left | intros _; now eexists].
    + destruct (s =? "") eqn:Hs.
      * apply String.eqb_eq in Hs. subst s. split; [intros name H; discriminate |].
        split; [intros _; right; now split | intros _; now eexists].
      * apply String.eqb_neq in Hs. split.
        -- intros name H. injection H as <-.
           split; [now left |]. split; [exact Hs |].
           split; [intros H; exfalso; apply Hin; exact H | reflexivity].
        -- split; [intros [e H]; discriminate |].
           intros [H | [_ H]]; [discriminate | congruence].
Qed.

Lemma append_template_scene_choice_witness :
  Builder.append_template_scene ["Main"; "Scene"] = Ok "Scene"
  /\ exists e, Builder.append_template_scene [] = Raise e.
Proof.
  destruct (append_template_scene_choice ["Main"; "Scene"]) as [Hok _].
  destruct (append_template_scene_choice []) as [_ [_ Hraise]].
  split.
  - destruct (Builder.append_template_scene ["Main"; "Scene"]) as [name | e] eqn:E.
    + destruct (Hok name eq_refl) as (_ & _ & Hscene & _).
      rewrite (Hscene (or_intror (or_introl eq_refl))). reflexivity.
    + discriminate.
  - apply Hraise. now left.
Defined.

End BuilderProps.

Section BuilderLoop.
Import Py Bpy Run.
Local Open Scope string_scope.

Variable w : Builder.World.
Variable a : Builder.Args.

(** One pass of the builder's loop when the template has a scene and the
    import, if there is one, does not raise. *)
Lemma build_scene_ok (ex_id tmpl : string) :
  Builder.append_template_scene (Builder.template_scenes w) = Ok tmpl ->
  (forall p, Builder.asset_for w a ex_id = Some p ->
             exists objects, Builder.import_asset_into_scene w p = Ok objects) ->
  Builder.build_scene w a ex_id
  = (match Builder.asset_for w a ex_id with
     | None => [Warn (Builder.missing_asset_line a ex_id)]
     | Some _ => []
     end,
     Ok {| Builder.cs_id := ex_id;
           Builder.cs_asset := Builder.asset_for w a ex_id;
           Builder.cs_timeline := Builder.timeline a ex_id |}).
Proof.
  intros Htmpl Himp. unfold Builder.build_scene.
  rewrite Htmpl.
  destruct (Builder.asset_for w a ex_id) as [p |]; [| reflexivity].
  destruct (Himp p eq_refl) as [objects Hobj]. rewrite Hobj. reflexivity.
Qed.

Lemma build_scenes_ok (catalog : list string) (tmpl : string) :
  Builder.append_template_scene (Builder.template_scenes w) = Ok tmpl ->
  (forall ex_id p,
      In ex_id catalog -> Builder.asset_for w a ex_id = Some p ->
      exists objects, Builder.import_asset_into_scene w p = Ok objects) ->
  exists log,
    Builder.build_scenes w a catalog
    = (log, Ok (map (fun ex_id =>
                       {| Builder.cs_id := ex_id;
                          Builder.cs_asset := Builder.asset_for w a ex_id;
                          Builder.cs_timeline := Builder.timeline a ex_id |})
                    catalog))
    /\ warnings log
       = map (Builder.missing_asset_line a)
             (filter (fun ex_id =>
                        match Builder.asset_for w a ex_id with
                        | None => true
                        | Some _ => false
                        end) catalog).
Proof.
  intros Htmpl. induction catalog as [| ex_id rest IH]; intros Himp.
  - exists []. split; reflexivity.
  - destruct IH as (log & Hrun & Hwarn).
    { intros id p Hin. apply Himp. now right. }
    cbn [Builder.build_scenes].
    rewrite (build_scene_ok ex_id tmpl Htmpl
               (fun p => Himp ex_id p (or_introl eq_refl))).
    unfold bind. rewrite Hrun. cbn [ret].
    eexists. split; [reflexivity |].
    cbn [filter map]. rewrite app_nil_r. unfold warnings at 1.
    rewrite flat_map_app. fold (warnings log). rewrite Hwarn.
    destruct (Builder.asset_for w a ex_id); reflexivity.
Qed.

End BuilderLoop.

Section BuilderClaims.
Import Py Bpy Run.
Local Open Scope string_scope.

(** X23.  When the template has a usable scene and no import raises, the
    loop of the catalog builder goes through every catalog entry, in
    order: each gets a scene to which its id is assigned as name, and the
    timeline of its duration class.  An entry without an asset costs one
    warning and still gets its scene and timeline; the builder does not
    skip it. *)
Theorem builder_makes_a_scene_per_id
        (w : Builder.World) (a : Builder.Args) (catalog : list string) (tmpl : string) :
  Builder.append_template_scene (Builder.template_scenes w) = Ok tmpl ->
  (forall ex_id p,
      In ex_id catalog ->
      Builder.find_asset (Builder.path_exists w) (Builder.src a) ex_id = Some p ->
      exists objects, Builder.import_asset_into_scene w p = Ok objects) ->
  exists log created,
    Builder.build_scenes w a catalog = (log, Ok created)
    /\ map Builder.cs_id created = catalog
    /\ Forall (fun cs =>
                 Builder.cs_timeline cs = Builder.timeline a (Builder.cs_id cs)
                 /\ Builder.cs_asset cs
                    = Builder.find_asset (Builder.path_exists w) (Builder.src a)
                        (Builder.cs_id cs))
              created
    /\ warnings log
       = map (Builder.missing_asset_line a)
             (filter (fun ex_id =>
                        match Builder.find_asset (Builder.path_exists w)
                                (Builder.src a) ex_id with
                        | None => true
                        | Some _ => false
                        end) catalog).
Proof.
  intros Htmpl Himp.
  destruct (build_scenes_ok w a catalog tmpl Htmpl Himp) as (log & Hrun & Hwarn).
  eexists. eexists. split; [exact Hrun |]. split; [| split; [| exact Hwarn]].
  - rewrite map_map. cbn [Builder.cs_id]. apply map_id.
  - apply Forall_map, Forall_forall. intros ex_id _. cbn.
    split; reflexivity.
Qed.

Lemma builder_makes_a_scene_per_id_witness :
  exists log created,
    Builder.build_scenes
      (Builder.mkWorld ["Scene"] (fun p => p =? "src/squats.fbx")
                       (fun _ _ => Ok []))
      (Builder.mkArgs "t.blend" "src" "c.blend" ["squats"; "plank"] ["plank"]
                      (22 # 10) 10 30)
      ["squats"; "plank"] = (log, Ok created)
    /\ map Builder.cs_id created = ["squats"; "plank"]
    /\ warnings log
       = ["[WARN] Missing asset for plank: expected plank.fbx|.glb in src"].
Proof.
  destruct (builder_makes_a_scene_per_id
              (Builder.mkWorld ["Scene"] (fun p => p =? "src/squats.fbx")
                               (fun _ _ => Ok []))
              (Builder.mkArgs "t.blend" "src" "c.blend" ["squats"; "plank"] ["plank"]
                              (22 # 10) 10 30)
              ["squats"; "plank"] "Scene" eq_refl)
    as (log & created & Hrun & Hnames & _ & Hwarn).
  - intros ex_id p [<- | [<- | []]] Hfind; vm_compute in Hfind;
      try discriminate; injection Hfind as <-; eexists; reflexivity.
  - exists log, created. split; [exact Hrun |]. split; [exact Hnames | exact Hwarn].
Defined.

(** X24.  A template without a usable scene stops the builder at the
    first id: the error leaves the loop, no warning is printed and no
    scene is made. *)
Theorem builder_needs_a_template_scene
        (w : Builder.World) (a : Builder.Args) (ex_id : string) (rest : list string)
        (e : Exn) :
  Builder.append_template_scene (Builder.template_scenes w) = Raise e ->
  Builder.build_scenes w a (ex_id :: rest) = ([], Raise e).
Proof.
  intros Htmpl. cbn [Builder.build_scenes]. unfold Builder.build_scene.
  rewrite Htmpl. reflexivity.
Qed.

Lemma builder_needs_a_template_scene_witness :
  Builder.build_scenes
    (Builder.mkWorld [] (fun _ => true) (fun _ _ => Ok []))
    (Builder.mkArgs "t.blend" "src" "c.blend" ["squats"] [] (22 # 10) 10 30)
    ["squats"]
  = ([], Raise (RuntimeError "No scene found in template .blend")).
Proof.
  apply builder_needs_a_template_scene. reflexivity.
Defined.

End BuilderClaims.

(* ------------------------------------------------------------------ *)
(** ** The files of a catalog render *)

Section RunFiles.
Import Py.
Local Open Scope string_scope.

Lemma select_scenes_incl (c : Catalog.Args) (scenes : list string) (s : string) :
  In s (Catalog.select_scenes c scenes) -> In s scenes.
Proof.
  unfold Catalog.select_scenes. destruct (Catalog.subset c) as [[| n ns] |];
    try tauto.
  intros H. apply filter_In in H. tauto.
Qed.

Lemma select_scenes_nodup (c : Catalog.Args) (scenes : list string) :
  NoDup scenes -> NoDup (Catalog.select_scenes c scenes).
Proof.
  unfold Catalog.select_scenes. destruct (Catalog.subset c) as [[| n ns] |];
    try tauto.
  apply NoDup_filter.
Qed.

Lemma render_scene_paths (c : Catalog.Args) (name : string) :
  map Catalog.r_filepath (Catalog.render_scene c name)
  = map (fun wh =>
           os_path_join (os_path_join (Catalog.out c) name)
                        (name ++ "_v1_" ++ wh ++ ".mp4"))
        ["1080x1080"; "1080x1920"; "1920x1080"].
Proof.
  unfold Catalog.render_scene. cbn [map Catalog.ASPECTS Catalog.r_filepath].
  now rewrite !catalog_filepath_joined.
Qed.

Lemma scenes_paths_nodup (c : Catalog.Args) (names : list string) :
  NoDup names ->
  Forall (fun s => s <> "" /\ Aux.no_sep s = true) names ->
  NoDup (map Catalog.r_filepath (flat_map (Catalog.render_scene c) names)).
Proof.
  intros Hnd Hplain.
  induction names as [| name rest IH]; cbn [flat_map map]; [constructor |].
  rewrite map_app, render_scene_paths.
  inversion Hnd as [| ? ? Hnotin Hnd']; subst.
  inversion Hplain as [| ? ? [Hne Hsep] Hplain']; subst.
  apply NoDup_app.
  - cbn [map]. repeat constructor; cbn [In]; intros H;
      repeat match goal with
             | H : _ \/ _ |- _ => destruct H as [H | H]
             | H : False |- _ => destruct H
             end;
      apply (joined_path_injective _ _ _ _ _ Hne Hsep Hne Hsep) in H;
      destruct H as [_ H]; discriminate.
  - now apply IH.
  - intros p Hp Hq. apply in_map_iff in Hp. destruct Hp as (wh & <- & _).
    apply in_map_iff in Hq. destruct Hq as (rc & Hrc & Hin).
    apply in_flat_map in Hin. destruct Hin as (other & Hother & Hin).
    assert (Hpath : In (Catalog.r_filepath rc)
                       (map Catalog.r_filepath (Catalog.render_scene c other)))
      by now apply in_map.
    rewrite render_scene_paths in Hpath. apply in_map_iff in Hpath.
    destruct Hpath as (wh' & Hwh' & _). rewrite Hrc in Hwh'.
    rewrite Forall_forall in Hplain'. destruct (Hplain' other Hother) as [Hne' Hsep'].
    destruct (joined_path_injective _ _ _ _ _ Hne' Hsep' Hne Hsep Hwh') as [-> _].
    contradiction.
Qed.

(** X15.  render_catalog_scenes.py never writes the same file twice:
    when the scenes of the file have distinct, non-empty names without a
    path separator, the paths of all the renders of a run are pairwise
    different, whatever the output root and the [--subset]. *)
Theorem catalog_writes_each_file_once (c : Catalog.Args) (scenes : list string) :
  NoDup scenes ->
  Forall (fun s => s <> "" /\ Aux.no_sep s = true) scenes ->
  NoDup (map Catalog.r_filepath (Catalog.main c scenes)).
Proof.
  intros Hnd Hplain. unfold Catalog.main. apply scenes_paths_nodup.
  - now apply select_scenes_nodup.
  - rewrite Forall_forall in *. intros s Hs. apply Hplain.
    now apply select_scenes_incl in Hs.
Qed.

Lemma catalog_writes_each_file_once_witness :
  NoDup (map Catalog.r_filepath
           (Catalog.main (Catalog.mkArgs "out/" 30 (22 # 10) 10 [] None)
                         ["squats"; "lunges"])).
Proof.
  apply catalog_writes_each_file_once.
  - repeat constructor; cbn [In]; intros H;
      repeat match goal with
             | H : _ \/ _ |- _ => destruct H as [H | H]
             | H : False |- _ => destruct H
             end; discriminate.
  - repeat constructor; discriminate.
Defined.

End RunFiles.

Section MoreWitnesses.
Import Bpy Run.
Local Open Scope string_scope.

Lemma builder_found_asset_reaches_importer_witness :
  Builder.import_asset_into_scene
    (Builder.mkWorld ["Scene"] (fun p => p =? "src/squats.fbx")
       (fun _ _ => Ok [Builder.mkSceneObject MESH (250, 3, 1)%Q]))
    "src/squats.fbx"
  = Ok [Builder.mkSceneObject MESH (0, 0, 1)%Q].
Proof.
  destruct (builder_found_asset_reaches_importer
              (Builder.mkWorld ["Scene"] (fun p => p =? "src/squats.fbx")
                 (fun _ _ => Ok [Builder.mkSceneObject MESH (250, 3, 1)%Q]))
              "src" "squats" "src/squats.fbx" eq_refl eq_refl eq_refl)
    as [importer H].
  rewrite H. reflexivity.
Defined.

Lemma center_on_origin_settles_witness :
  (Qabs (fst (fst (Builder.so_location
                     (Builder.center (Builder.mkSceneObject MESH (250, 3, 1)%Q)))))
   <= 100)%Q.
Proof.
  destruct (center_on_origin_settles [Builder.mkSceneObject MESH (250, 3, 1)%Q])
    as [_ [Hpost _]].
  apply Forall_inv in Hpost. apply Hpost. right. reflexivity.
Defined.

End MoreWitnesses.
